(** * DocReportGenerator: fetch JSON, normalize it, render a report

    A shallow embedding of [doc.py].  The class [DocReportGenerator] has
    five methods, [fetch_data], [_normalize], [format_doc], [save] and
    [run]; each one is a definition of the same name below.  Python values
    decoded from JSON are the inductive [json]; exceptions are explicit
    results; the attributes of [self], the files on disk and the clock are
    threaded through a small state-and-exception monad.  The script's
    entry point is [main], and the [_normalize] of the earlier snapshot
    kept under [.history] is [History._normalize]. *)

From Stdlib Require Import ZArith NArith List Ascii String DecimalString Lia.
From Stdlib Require Import Sorting.Sorted.
From Stdlib Require Import Floats.SpecFloat.
From stdpp Require Import base option list gmap.

Local Open Scope nat_scope.

(* ================================================================== *)
(** * Python values                                                    *)
(* ================================================================== *)

Module Py.

(** A Python [str] is a sequence of Unicode code points. *)
Definition str : Type := list N.

(** String literals of the source, written as Rocq strings. *)
Definition lit (s : string) : str := map N_of_ascii (list_ascii_of_string s).
Arguments lit s%_string.

(** [str(n)] for a non-negative [int]. *)
Definition str_of_nat (n : nat) : str :=
  lit (NilZero.string_of_uint (Nat.to_uint n)).

(** [str(z)] for an [int]. *)
Definition str_of_int (z : Z) : str :=
  lit (NilZero.string_of_int (Z.to_int z)).

(** [str.isspace] on one code point: the white space of CPython's
    [Py_UNICODE_ISSPACE]. *)
Definition isspace (c : N) : bool :=
  ((9 <=? c) && (c <=? 13) || (28 <=? c) && (c <=? 32)
   || (c =? 133) || (c =? 160) || (c =? 5760)
   || (8192 <=? c) && (c <=? 8202)
   || (c =? 8232) || (c =? 8233) || (c =? 8239) || (c =? 8287)
   || (c =? 12288))%N.

Fixpoint lstrip (s : str) : str :=
  match s with
  | c :: rest => if isspace c then lstrip rest else s
  | [] => []
  end.

Definition rstrip (s : str) : str := rev (lstrip (rev s)).

(** [s.strip()] with no argument. *)
Definition strip (s : str) : str := rstrip (lstrip s).

(** What [json.loads] (through [resp.json()]) can return: [None], [bool],
    [int], [float], [str], [list] and [dict] with [str] keys. *)
#[warnings="-register-all"]
Inductive json : Type :=
| JNull
| JBool (b : bool)
| JInt (z : Z)
| JFloat (f : spec_float)
| JStr (s : str)
| JList (l : list json)
| JDict (d : gmap str json).

(** [isinstance(v, list)] and [isinstance(v, dict)].  [bool] and [int] are
    neither. *)
Definition isinstance_list (v : json) : bool :=
  match v with JList _ => true | _ => false end.

Definition isinstance_dict (v : json) : bool :=
  match v with JDict _ => true | _ => false end.

Definition float_is_zero (f : spec_float) : bool :=
  match f with S754_zero _ => true | _ => false end.

(** Truth value testing, [bool(v)]. *)
Definition truthy (v : json) : bool :=
  match v with
  | JNull => false
  | JBool b => b
  | JInt z => negb (z =? 0)%Z
  | JFloat f => negb (float_is_zero f)
  | JStr s => negb (Nat.eqb (length s) 0)
  | JList l => negb (Nat.eqb (length l) 0)
  | JDict d => negb (Nat.eqb (size d) 0)
  end.

(** [x or y]: [x] when it is true, else [y]. *)
Definition or_ (x y : json) : json := if truthy x then x else y.

(** Exception classes that the program raises, catches or lets through. *)
Inductive exc_class : Type :=
| RuntimeError
| AttributeError
| TypeError
| OSError
| KeyboardInterrupt
| RequestException          (* requests.RequestException itself *)
| ConnectionError           (* requests.ConnectionError *)
| Timeout                   (* requests.Timeout *)
| HTTPError                 (* requests.HTTPError *)
| JSONDecodeError           (* json.JSONDecodeError *)
| RequestsJSONDecodeError.  (* requests.JSONDecodeError, a subclass of both *)

(** An exception object: its class, [str(e)] and the [__cause__] set by
    [raise ... from e]. *)
#[warnings="-register-all"]
Inductive exn : Type :=
| Exn (cls : exc_class) (descr : str) (cause : option exn).

Definition exn_class (e : exn) : exc_class := let 'Exn c _ _ := e in c.
Definition exn_str (e : exn) : str := let 'Exn _ s _ := e in s.
Definition exn_cause (e : exn) : option exn := let 'Exn _ _ c := e in c.

(** [isinstance(e, requests.RequestException)]. *)
Definition isinstance_RequestException (e : exn) : bool :=
  match exn_class e with
  | RequestException | ConnectionError | Timeout | HTTPError
  | RequestsJSONDecodeError => true
  | _ => false
  end.

(** [isinstance(e, json.JSONDecodeError)]. *)
Definition isinstance_JSONDecodeError (e : exn) : bool :=
  match exn_class e with
  | JSONDecodeError | RequestsJSONDecodeError => true
  | _ => false
  end.

(** [isinstance(e, Exception)]: everything but the [BaseException]-only
    classes. *)
Definition isinstance_Exception (e : exn) : bool :=
  match exn_class e with
  | KeyboardInterrupt => false
  | _ => true
  end.

(** The outcome of evaluating an expression: a value or a raised
    exception. *)
Inductive result (A : Type) : Type :=
| Ok (a : A)
| Raise (e : exn).
Arguments Ok {A} a.
Arguments Raise {A} e.

#[export] Instance result_ret : MRet result := fun _ a => Ok a.
#[export] Instance result_bind : MBind result := fun _ _ f m =>
  match m with
  | Ok a => f a
  | Raise e => Raise e
  end.

(** [type(v).__name__]. *)
Definition type_name (v : json) : str :=
  match v with
  | JNull => lit "NoneType"
  | JBool _ => lit "bool"
  | JInt _ => lit "int"
  | JFloat _ => lit "float"
  | JStr _ => lit "str"
  | JList _ => lit "list"
  | JDict _ => lit "dict"
  end.

(** The [AttributeError] of a method looked up on a value that lacks it. *)
Definition no_attribute (v : json) (name : string) : exn :=
  Exn AttributeError
    (lit "'" ++ type_name v ++ lit "' object has no attribute '"
       ++ lit name ++ lit "'") None.

(** [v.get(key, default)].  Only a [dict] has the method; on any other
    value of [json] the attribute lookup raises [AttributeError]. *)
Definition get (v : json) (key : str) (dflt : json) : result json :=
  match v with
  | JDict d => Ok (default dflt (d !! key))
  | _ => Raise (no_attribute v "get")
  end.

(** [v.strip()].  Only a [str] has the method. *)
Definition strip_method (v : json) : result str :=
  match v with
  | JStr s => Ok (strip s)
  | _ => Raise (no_attribute v "strip")
  end.

(** The line feed written [\n] in the source's literals. *)
Definition nl : str := [10%N].

(** [str(v)], also what an f-string field [{v}] expands to.  For a
    [float], a [list] or a [dict] it is the interpreter's [repr], taken as
    the parameter [repr]. *)
Definition str_of (repr : json -> str) (v : json) : str :=
  match v with
  | JNull => lit "None"
  | JBool true => lit "True"
  | JBool false => lit "False"
  | JInt z => str_of_int z
  | JStr s => s
  | _ => repr v
  end.

(** [enumerate(l, start)]. *)
Fixpoint enumerate {A : Type} (l : list A) (start : nat) : list (nat * A) :=
  match l with
  | [] => []
  | x :: rest => (start, x) :: enumerate rest (S start)
  end.

(** An aware UTC [datetime], as [datetime.now(timezone.utc)] returns it.
    Every [datetime] object is true. *)
Record datetime : Type := Datetime {
  year : nat; month : nat; day : nat;
  hour : nat; minute : nat; second : nat
}.

(** Zero-padding of a decimal field to [width] digits. *)
Definition zfill (width : nat) (s : str) : str :=
  repeat 48%N (width - length s) ++ s.

(** [d.strftime("%Y-%m-%d %H:%M:%S UTC")], the one format the source
    uses. *)
Definition strftime_utc (d : datetime) : str :=
  zfill 4 (str_of_nat (year d)) ++ lit "-" ++
  zfill 2 (str_of_nat (month d)) ++ lit "-" ++
  zfill 2 (str_of_nat (day d)) ++ lit " " ++
  zfill 2 (str_of_nat (hour d)) ++ lit ":" ++
  zfill 2 (str_of_nat (minute d)) ++ lit ":" ++
  zfill 2 (str_of_nat (second d)) ++ lit " UTC".

End Py.
Import Py.

(* ================================================================== *)
(** * The document object model built through [python-docx]            *)
(* ================================================================== *)

Module Docx.

(** A run of text: what [add_run(text)] creates, with the [bold] flag and
    the font size in points when the source sets them. *)
Record text_run : Type := Run {
  run_text : str;
  run_bold : bool;
  run_size : option nat
}.

(** The block-level content the source adds to the document body.  A table
    cell holds the value that was assigned to its [text] attribute; what
    the library does with a value that is not a [str] is outside this
    program. *)
Inductive block : Type :=
| Heading (text : str) (level : nat) (centered : bool)
| Paragraph (runs : list text_run)
| Table (style : str) (rows : list (list json)).

Inductive orientation : Type := PORTRAIT | LANDSCAPE.

(** Page geometry of the first section; lengths are in English Metric
    Units, [Inches(0.75)] being 685800 of them. *)
Record section : Type := Section_ {
  sec_orientation : orientation;
  top_margin : Z; bottom_margin : Z;
  left_margin : Z; right_margin : Z
}.

Record document : Type := Document {
  doc_section : section;
  doc_body : list block
}.

Definition Inches_0_75 : Z := 685800.
Definition Pt_11 : nat := 11.

Definition is_table (b : block) : bool :=
  match b with Table _ _ => true | _ => false end.

End Docx.
Import Docx.

(* ================================================================== *)
(** * The HTTP client, [requests]                                      *)
(* ================================================================== *)

Module Requests.

(** A response object: the status line, and what [resp.json()] does on
    its body (the decoded value, or the exception it raises). *)
Record response : Type := Response {
  status_code : nat;
  reason : str;
  url : str;
  json_ : result json
}.

(** [resp.raise_for_status()]: [HTTPError] for a 4xx or a 5xx status,
    nothing otherwise. *)
Definition raise_for_status (resp : response) : result unit :=
  let code := status_code resp in
  if (400 <=? code) && (code <? 500) then
    Raise (Exn HTTPError
      (str_of_nat code ++ lit " Client Error: " ++ reason resp
         ++ lit " for url: " ++ url resp) None)
  else if (500 <=? code) && (code <? 600) then
    Raise (Exn HTTPError
      (str_of_nat code ++ lit " Server Error: " ++ reason resp
         ++ lit " for url: " ++ url resp) None)
  else Ok tt.

End Requests.
Import Requests.

(* ================================================================== *)
(** * The generator object and the world around it                     *)
(* ================================================================== *)

(** The attributes of a [DocReportGenerator] instance. *)
Record generator : Type := Generator {
  api_url : str;
  output_path : str;
  headers : gmap str str;
  timeout : Z;
  last_fetch_at : option datetime;
  raw_data : option json
}.

(** What lies outside the program: the server behind [requests.get], the
    clock behind [datetime.now] (one reading per call, numbered), the
    disk behind [doc.save] ([None] when the write succeeds), and the
    interpreter's [repr]. *)
Record env : Type := Env {
  py_repr : json -> str;
  requests_get :
    str -> gmap str str -> option (gmap str json) -> Z -> result response;
  utc_now : nat -> datetime;
  docx_save : str -> document -> option exn
}.

(** The mutable state of a run: the instance, the files on disk, and how
    many times the clock has been read. *)
Record state : Type := State {
  self : generator;
  files : gmap str document;
  ticks : nat
}.

(** Computations that read [env], update [state], and return or raise.
    A raised exception keeps the state reached so far. *)
Definition M (A : Type) : Type := env -> state -> result A * state.

#[export] Instance M_ret : MRet M := fun _ a _ s => (Ok a, s).
#[export] Instance M_bind : MBind M := fun _ _ f m e s =>
  match m e s with
  | (Ok a, s') => f a e s'
  | (Raise x, s') => (Raise x, s')
  end.

Definition raise {A : Type} (x : exn) : M A := fun _ s => (Raise x, s).

(** Lifting an effect-free outcome. *)
Definition lift {A : Type} (r : result A) : M A := fun _ s => (r, s).

(** [try: body  except C as e: handler e], where [catches e] is
    [isinstance(e, C)]. *)
Definition try_except {A : Type}
    (body : M A) (catches : exn -> bool) (handler : exn -> M A) : M A :=
  fun e s =>
    match body e s with
    | (Raise x, s') => if catches x then handler x e s' else (Raise x, s')
    | ok => ok
    end.

Definition ask_repr : M (json -> str) := fun e s => (Ok (py_repr e), s).

Definition get_self : M generator := fun _ s => (Ok (self s), s).

Definition set_raw_data (data : json) : M unit := fun _ s =>
  let g := self s in
  (Ok tt,
   State (Generator (api_url g) (output_path g) (headers g) (timeout g)
            (last_fetch_at g) (Some data))
         (files s) (ticks s)).

Definition set_last_fetch_at (t : datetime) : M unit := fun _ s =>
  let g := self s in
  (Ok tt,
   State (Generator (api_url g) (output_path g) (headers g) (timeout g)
            (Some t) (raw_data g))
         (files s) (ticks s)).

(** [datetime.now(timezone.utc)]. *)
Definition datetime_now : M datetime := fun e s =>
  (Ok (utc_now e (ticks s)), State (self s) (files s) (S (ticks s))).

(** [requests.get(url, headers=..., params=..., timeout=...)]. *)
Definition requests_get_call (u : str) (h : gmap str str)
    (params : option (gmap str json)) (t : Z) : M response :=
  fun e s => (requests_get e u h params t, s).

(** [doc.save(path)]: the file appears only when the write succeeds. *)
Definition document_save (doc : document) (path : str) : M unit := fun e s =>
  match docx_save e path doc with
  | None => (Ok tt, State (self s) (<[path := doc]> (files s)) (ticks s))
  | Some x => (Raise x, s)
  end.

(* ================================================================== *)
(** * class DocReportGenerator                                         *)
(* ================================================================== *)

(** The normalized report: the dict [{"meta": ..., "items": ...}] that
    [_normalize] returns, its keys as fields. *)
Record Meta : Type := mkMeta {
  source : str;
  count : nat
}.

Record ItemRecord : Type := mkItem {
  index : nat;
  id_ : json;
  title : json;
  status : str;
  created_at : str;
  summary : json
}.

Record NormalizedReport : Type := mkReport {
  meta : Meta;
  items : list ItemRecord
}.

(** [__init__]: [headers or {"Accept": "application/json"}], and the two
    attributes that start as [None]. *)
Definition __init__ (api_url output_path : str)
    (headers : option (gmap str str)) (timeout : Z) : generator :=
  let h :=
    match headers with
    | Some h => if Nat.eqb (size h) 0
                then {[ lit "Accept" := lit "application/json" ]} else h
    | None => {[ lit "Accept" := lit "application/json" ]}
    end in
  Generator api_url output_path h timeout None None.

(** Lines 38-46 of [_normalize]: the candidate items and the metadata,
    chosen by the shape of [data]. *)
Definition shape_dispatch (self : generator) (data : json)
    : list json * Meta :=
  match data with
  | JList l => (l, mkMeta (api_url self) (length l))
  | JDict _ => ([data], mkMeta (api_url self) 1)
  | _ => ([], mkMeta (api_url self) 0)
  end.

(** The dict appended for one candidate (lines 51-58). *)
Definition normalize_item (i : nat) (item : json) : result ItemRecord :=
  v_id ← get item (lit "id") (JStr (lit "item-" ++ str_of_nat i));
  v_title ← get item (lit "title") JNull;
  v_body ← get item (lit "body") (JStr (lit ""));
  mret (mkItem i v_id (or_ v_title (JStr (lit "(untitled)")))
          (lit "published") (lit "") v_body).

(** The loop of lines 48-58 over [enumerate(items, start=1)], with
    [normalized_items] as the accumulator. *)
Fixpoint normalize_loop (pairs : list (nat * json))
    (normalized_items : list ItemRecord) : result (list ItemRecord) :=
  match pairs with
  | [] => mret normalized_items
  | (i, item) :: rest =>
      if negb (isinstance_dict item) then normalize_loop rest normalized_items
      else
        r ← normalize_item i item;
        normalize_loop rest (normalized_items ++ [r])
  end.

(** [_normalize]. *)
Definition _normalize (self : generator) (data : json)
    : result NormalizedReport :=
  let '(items, meta) := shape_dispatch self data in
  normalized_items ← normalize_loop (enumerate items 1) [];
  mret (mkReport meta normalized_items).

(** [fetch_data]: the inner [try] guards [resp.json()] only, the outer one
    the whole body, the [raise] of the inner handler included. *)
Definition fetch_data (params : option (gmap str json)) : M json :=
  try_except
    (g ← get_self;
     resp ← requests_get_call (api_url g) (headers g) params (timeout g);
     _ ← lift (raise_for_status resp);
     data ← try_except (lift (json_ resp)) isinstance_JSONDecodeError
       (fun e => raise (Exn RuntimeError
                   (lit "Invalid JSON from API: " ++ exn_str e) (Some e)));
     _ ← set_raw_data data;
     now ← datetime_now;
     _ ← set_last_fetch_at now;
     mret data)
    isinstance_RequestException
    (fun e => raise (Exn RuntimeError
                (lit "API request failed: " ++ exn_str e) (Some e))).

(** The header row of the summary table. *)
Definition table_headers : list json :=
  [JStr (lit "#"); JStr (lit "ID"); JStr (lit "Title");
   JStr (lit "Status"); JStr (lit "Created")].

(** The five cells of an item's row (lines 88-93). *)
Definition table_row (repr : json -> str) (row : ItemRecord) : list json :=
  [JStr (str_of_nat (index row)); JStr (str_of repr (id_ row));
   title row; JStr (status row); JStr (created_at row)].

(** The body text of a detail section (line 99). *)
Definition detail_body (row : ItemRecord) : result str :=
  stripped ← strip_method (summary row);
  mret (if Nat.eqb (length stripped) 0
        then lit "(no summary available)" else stripped).

(** The three blocks of one detail section (lines 96-101). *)
Definition detail_section (repr : json -> str) (row : ItemRecord)
    : result (list block) :=
  body ← detail_body row;
  mret [ Heading (str_of_nat (index row) ++ lit ". "
                    ++ str_of repr (title row)) 2 false;
         Paragraph [Run (lit "ID: " ++ str_of repr (id_ row)
                           ++ lit " | Status: " ++ status row
                           ++ lit " | Created: " ++ created_at row ++ nl)
                      true None];
         Paragraph [Run body false (Some Pt_11)] ].

(** The loop of lines 95-101. *)
Fixpoint detail_sections (repr : json -> str) (rows : list ItemRecord)
    : result (list block) :=
  match rows with
  | [] => mret []
  | row :: rest =>
      blocks ← detail_section repr row;
      more ← detail_sections repr rest;
      mret (blocks ++ more)
  end.

(** The metadata paragraph (lines 73-78). *)
Definition meta_paragraph (m : Meta) (generated_at : str)
    (last_fetch_at : option datetime) : block :=
  Paragraph
    ([ Run (lit "Source: " ++ source m ++ nl) true None;
       Run (lit "Items: " ++ str_of_nat (count m) ++ nl) false None;
       Run (lit "Generated: " ++ generated_at ++ nl) false None ]
     ++ match last_fetch_at with
        | Some t => [Run (lit "Fetched: " ++ strftime_utc t ++ nl) false None]
        | None => []
        end).

(** The summary table and the spacer after it (lines 80-94). *)
Definition summary_table (repr : json -> str) (items : list ItemRecord)
    : list block :=
  match items with
  | [] => []
  | _ => [ Table (lit "Light Grid") (table_headers :: map (table_row repr) items);
           Paragraph [] ]
  end.

Definition report_title : block := Heading (lit "API Report Summary") 0 true.

(** [format_doc].  [normalized] is a report as [_normalize] builds it: it
    holds both keys and both metadata fields, so the defaults of the
    [get] calls on it are never taken and are left out.  The calls into
    the document library are taken to succeed; the library itself refuses
    a cell text that is not a [str] and a text with a control character,
    and the statements that depend on its answer assume plain texts. *)
Definition format_doc (normalized : NormalizedReport) : M document :=
  let section :=
    Section_ PORTRAIT Inches_0_75 Inches_0_75 Inches_0_75 Inches_0_75 in
  now ← datetime_now;
  let generated_at := strftime_utc now in
  g ← get_self;
  repr ← ask_repr;
  let p := meta_paragraph (meta normalized) generated_at (last_fetch_at g) in
  let items := items normalized in
  details ← lift (detail_sections repr items);
  mret (Document section
          (report_title :: p :: summary_table repr items ++ details)).

(** [save]. *)
Definition save (doc : document) : M str :=
  try_except
    (g ← get_self;
     _ ← document_save doc (output_path g);
     mret (output_path g))
    isinstance_Exception
    (fun e => raise (Exn RuntimeError
                (lit "Failed to save DOCX: " ++ exn_str e) (Some e))).

(** [run]: fetch, normalize, format, save. *)
Definition run (params : option (gmap str json)) : M str :=
  data ← fetch_data params;
  g ← get_self;
  normalized ← lift (_normalize g data);
  doc ← format_doc normalized;
  save doc.

(** [isinstance(e, RuntimeError)]. *)
Definition isinstance_RuntimeError (e : exn) : bool :=
  match exn_class e with
  | RuntimeError => true
  | _ => false
  end.

(** The instance the script builds (lines 119-120). *)
Definition main_generator : generator :=
  __init__ (lit "https://jsonplaceholder.typicode.com/posts")
    (lit "api_report.docx") None 15.

(** The script under [if __name__ == "__main__"] (lines 118-125), run on
    the disk and the clock of [s] with its own instance.  The value
    returned is the line it prints; an exception that is not a
    [RuntimeError] leaves the script uncaught. *)
Definition main : M str := fun e s =>
  try_except
    (path ← run None;
     mret (lit "Report generated: " ++ path))
    isinstance_RuntimeError
    (fun err => mret (lit "Error: " ++ exn_str err))
    e (State main_generator (files s) (ticks s)).

(* ================================================================== *)
(** * The earlier [_normalize], from [.history/doc_20251208115850.py]   *)
(* ================================================================== *)

Module History.

(** The metadata of this variant hold Python values: [source] may be a
    value of the payload, [count] a value of the payload, a length or
    [None]. *)
Record Meta : Type := mkMeta {
  source : json;
  count : json
}.

Record ItemRecord : Type := mkItem {
  index : nat;
  id_ : json;
  title : json;
  status : json;
  created_at : json;
  summary : json
}.

Record NormalizedReport : Type := mkReport {
  meta : Meta;
  items : list ItemRecord
}.

(** [key in d]. *)
Definition contains (d : gmap str json) (key : str) : bool :=
  match d !! key with
  | Some _ => true
  | None => false
  end.

(** [possible_item_keys] (line 55). *)
Definition possible_item_keys : list str :=
  [lit "id"; lit "name"; lit "title"; lit "status"; lit "created_at"].

(** Lines 47-63: the candidate items and the metadata.  For a mapping,
    [data["items"]] and [len(data.get("items", []))] are evaluated only
    under [isinstance(data.get("items"), list)], where they are that list
    and its length. *)
Definition shape_dispatch (self : generator) (data : json)
    : result (list json * Meta) :=
  match data with
  | JDict d =>
      v_source ← get data (lit "source") JNull;
      v_count ← get data (lit "count") JNull;
      v_items ← get data (lit "items") JNull;
      let computed :=
        match v_items with
        | JList l => JInt (Z.of_nat (length l))
        | _ => JNull
        end in
      let meta := mkMeta (or_ v_source (JStr (api_url self)))
                         (or_ v_count computed) in
      let items :=
        match v_items with
        | JList l => l
        | _ => if existsb (contains d) possible_item_keys then [data] else []
        end in
      mret (items, meta)
  | JList l =>
      mret (l, mkMeta (JStr (api_url self)) (JInt (Z.of_nat (length l))))
  | _ => mret ([], mkMeta (JStr (api_url self)) (JInt 0))
  end.

(** The dict appended for one candidate (lines 70-77). *)
Definition normalize_item (i : nat) (item : json) : result ItemRecord :=
  v_id ← get item (lit "id") (JStr (lit "item-" ++ str_of_nat i));
  v_title ← get item (lit "title") JNull;
  v_name ← get item (lit "name") JNull;
  v_status ← get item (lit "status") JNull;
  v_created_at ← get item (lit "created_at") JNull;
  v_date ← get item (lit "date") JNull;
  v_summary ← get item (lit "summary") JNull;
  v_description ← get item (lit "description") JNull;
  mret (mkItem i v_id
          (or_ (or_ v_title v_name) (JStr (lit "(untitled)")))
          (or_ v_status (JStr (lit "unknown")))
          (or_ (or_ v_created_at v_date) (JStr (lit "")))
          (or_ (or_ v_summary v_description) (JStr (lit "")))).

(** The loop of lines 67-77. *)
Fixpoint normalize_loop (pairs : list (nat * json))
    (normalized_items : list ItemRecord) : result (list ItemRecord) :=
  match pairs with
  | [] => mret normalized_items
  | (i, item) :: rest =>
      if negb (isinstance_dict item) then normalize_loop rest normalized_items
      else
        r ← normalize_item i item;
        normalize_loop rest (normalized_items ++ [r])
  end.

Definition _normalize (self : generator) (data : json)
    : result NormalizedReport :=
  '(items, meta) ← shape_dispatch self data;
  normalized_items ← normalize_loop (enumerate items 1) [];
  mret (mkReport meta normalized_items).

(** [d.get(k)], for a key [k] written as a literal. *)
Definition field (d : gmap str json) (k : string) : json :=
  default JNull (d !! lit k).
Arguments field d k%_string.

(** The record built for the mapping [d] met at position [i]. *)
Definition record_of (i : nat) (d : gmap str json) : ItemRecord :=
  mkItem i
    (default (JStr (lit "item-" ++ str_of_nat i)) (d !! lit "id"))
    (or_ (or_ (default JNull (d !! lit "title"))
              (default JNull (d !! lit "name")))
         (JStr (lit "(untitled)")))
    (or_ (default JNull (d !! lit "status")) (JStr (lit "unknown")))
    (or_ (or_ (default JNull (d !! lit "created_at"))
              (default JNull (d !! lit "date")))
         (JStr (lit "")))
    (or_ (or_ (default JNull (d !! lit "summary"))
              (default JNull (d !! lit "description")))
         (JStr (lit ""))).

(** The records of the mappings among [candidates], the first candidate
    being at position [i]. *)
Fixpoint records_from (i : nat) (candidates : list json) : list ItemRecord :=
  match candidates with
  | [] => []
  | JDict d :: rest => record_of i d :: records_from (S i) rest
  | _ :: rest => records_from (S i) rest
  end.

End History.

(* ================================================================== *)
(** * Vocabulary of the statements                                     *)
(* ================================================================== *)

(** The record built for the mapping [d] met at enumeration position
    [i]. *)
Definition record_of (i : nat) (d : gmap str json) : ItemRecord :=
  mkItem i
    (default (JStr (lit "item-" ++ str_of_nat i)) (d !! lit "id"))
    (or_ (default JNull (d !! lit "title")) (JStr (lit "(untitled)")))
    (lit "published") (lit "")
    (default (JStr (lit "")) (d !! lit "body")).

(** The records of the mappings among [candidates], the first candidate
    being at position [i]. *)
Fixpoint records_from (i : nat) (candidates : list json) : list ItemRecord :=
  match candidates with
  | [] => []
  | JDict d :: rest => record_of i d :: records_from (S i) rest
  | _ :: rest => records_from (S i) rest
  end.

(** All the text runs of a document's paragraphs, in order. *)
Definition doc_runs (doc : document) : list text_run :=
  flat_map (fun b => match b with Paragraph rs => rs | _ => [] end)
           (doc_body doc).


(** The two [RuntimeError]s of [fetch_data], each chained to its cause
    [x] by [from]. *)
Definition transport_error (x : exn) : exn :=
  Exn RuntimeError (lit "API request failed: " ++ exn_str x) (Some x).

Definition decode_error (x : exn) : exn :=
  Exn RuntimeError (lit "Invalid JSON from API: " ++ exn_str x) (Some x).

(** The outcome of the request that [fetch_data] sends from the state
    [s]. *)
Definition sent (params : option (gmap str json)) (e : env) (s : state)
    : result response :=
  requests_get e (api_url (self s)) (headers (self s)) params
    (timeout (self s)).

(** What leaves the outer [try] of [fetch_data] when [x] is raised in it:
    the handler wraps a [RequestException], anything else passes. *)
Definition outer (x : exn) : exn :=
  if isinstance_RequestException x then transport_error x else x.

(** How a caller can classify the [RuntimeError] that [fetch_data] raised:
    by the prefix of its message. *)
Fixpoint starts_with (prefix s : str) : bool :=
  match prefix, s with
  | [], _ => true
  | p :: prefix', c :: s' => (p =? c)%N && starts_with prefix' s'
  | _ :: _, [] => false
  end.

Definition is_transport_error (x : exn) : bool :=
  starts_with (lit "API request failed: ") (exn_str x).

Definition is_decode_error (x : exn) : bool :=
  starts_with (lit "Invalid JSON from API: ") (exn_str x).

(** Concrete objects for the examples. *)
Definition example_generator : generator :=
  __init__ (lit "https://api.example/posts") (lit "report.docx") None 15.

Definition example_state : state := State example_generator ∅ 0.

Definition example_clock (n : nat) : datetime := Datetime 2025 12 8 11 58 (50 + n).

(** A server that answers [status] with the given outcome of [json()]. *)
Definition example_env (status : nat) (body : result json) : env :=
  Env (fun _ => lit "?")
      (fun u _ _ _ => Ok (Response status (lit "reason") u body))
      example_clock
      (fun _ _ => None).

(** A server that cannot be reached. *)
Definition unreachable_env (x : exn) : env :=
  Env (fun _ => lit "?") (fun _ _ _ _ => Raise x) example_clock (fun _ _ => None).

(** The state in which a fetch that returns [data] leaves a run started
    in [s]: the payload and the clock reading are stored on the instance,
    the clock has been read once. *)
Definition fetched (e : env) (s : state) (data : json) : state :=
  State (Generator (api_url (self s)) (output_path (self s))
           (headers (self s)) (timeout (self s))
           (Some (utc_now e (ticks s))) (Some data))
        (files s) (S (ticks s)).

(** The document a run started in [s] renders from the fetched [data],
    given the blocks of its detail sections: the fetch read the clock
    first, the renderer second. *)
Definition report_document (e : env) (s : state) (data : json)
    (details : list block) : document :=
  Document
    (Section_ PORTRAIT Inches_0_75 Inches_0_75 Inches_0_75 Inches_0_75)
    (report_title
     :: meta_paragraph (shape_dispatch (self s) data).2
          (strftime_utc (utc_now e (S (ticks s))))
          (Some (utc_now e (ticks s)))
     :: summary_table (py_repr e)
          (records_from 1 (shape_dispatch (self s) data).1)
        ++ details).

(** The state in which such a run is once the document is rendered. *)
Definition rendered (e : env) (s : state) (data : json) : state :=
  State (self (fetched e s data)) (files s) (S (S (ticks s))).

(** The state in which the script starts its run: its own instance on
    the disk and the clock of [s]. *)
Definition main_state (s : state) : state :=
  State main_generator (files s) (ticks s).

(** The [RuntimeError] of [save], chained to its cause [x]. *)
Definition save_error (x : exn) : exn :=
  Exn RuntimeError (lit "Failed to save DOCX: " ++ exn_str x) (Some x).

Definition is_save_error (x : exn) : bool :=
  starts_with (lit "Failed to save DOCX: ") (exn_str x).

(** [isinstance(v, str)]. *)
Definition isinstance_str (v : json) : bool :=
  match v with JStr _ => true | _ => false end.

(** A candidate whose record gets a [str] summary: a mapping whose [body]
    is a string or is missing.  Candidates that are skipped count as
    such. *)
Definition string_body (v : json) : bool :=
  match v with
  | JDict d =>
      match d !! lit "body" with
      | Some b => isinstance_str b
      | None => true
      end
  | _ => true
  end.

(** A text that the document library takes as it is given: every code
    point is a tab, a line feed, or lies between U+0020 and U+007E or
    between U+00A0 and U+D7FF, so that it holds none of the control
    characters the library refuses. *)
Definition plain_text (t : str) : bool :=
  forallb (fun c => (c =? 9) || (c =? 10)
                    || (32 <=? c) && (c <=? 126)
                    || (160 <=? c) && (c <=? 55295))%N t.

(** A row whose texts the document library takes: the [id] as [str]
    prints it, the status and the date are plain, the title is a plain
    [str] as a table cell expects, and the summary is plain when it is a
    [str]. *)
Definition plain_row (repr : json -> str) (row : ItemRecord) : bool :=
  plain_text (str_of repr (id_ row))
  && match title row with
     | JStr t => plain_text t
     | _ => false
     end
  && plain_text (status row)
  && plain_text (created_at row)
  && match summary row with
     | JStr t => plain_text t
     | _ => true
     end.

(** A candidate whose record is such a row: a mapping whose [id], when
    there, prints as plain text, whose [title] is a plain string, is false
    or is missing, and whose [body] is plain when it is a string.
    Candidates that are skipped count as such. *)
Definition plain_candidate (repr : json -> str) (v : json) : bool :=
  match v with
  | JDict d =>
      match d !! lit "id" with
      | Some i => plain_text (str_of repr i)
      | None => true
      end
      && match d !! lit "title" with
         | Some (JStr t) => plain_text t
         | Some t => negb (truthy t)
         | None => true
         end
      && match d !! lit "body" with
         | Some (JStr t) => plain_text t
         | _ => true
         end
  | _ => true
  end.

(** The texts of the level-2 headings of a document, in order. *)
Definition detail_headings (doc : document) : list str :=
  flat_map (fun b => match b with
                     | Heading t 2 _ => [t]
                     | _ => []
                     end) (doc_body doc).

(** The texts of the runs set in 11 points, in order: the bodies of the
    detail sections. *)
Definition detail_bodies (doc : document) : list str :=
  flat_map (fun r => match run_size r with
                     | Some 11 => [run_text r]
                     | _ => []
                     end) (doc_runs doc).

(** The heading [format_doc] gives to a row (line 96). *)
Definition heading_text (repr : json -> str) (row : ItemRecord) : str :=
  str_of_nat (index row) ++ lit ". " ++ str_of repr (title row).

(** The response [example_env] gives to a request for [u]. *)
Definition example_response (u : str) (status : nat) (body : result json)
    : response :=
  Response status (lit "reason") u body.

(** Payloads of the examples: one mapping with a string body beside a
    bare number, and one mapping whose body is [null]. *)
Definition world_payload : json :=
  JList [JDict (<[lit "body" := JStr (lit "World")]> ∅); JInt 3].

Definition null_body_payload : json :=
  JList [JDict (<[lit "body" := JNull]> ∅)].

(** A server that answers 200 with [payload], and a disk on which every
    write fails with [x]. *)
Definition full_disk_env (payload : json) (x : exn) : env :=
  Env (fun _ => lit "?")
      (fun u _ _ _ => Ok (Response 200 (lit "OK") u (Ok payload)))
      example_clock
      (fun _ _ => Some x).

(* ================================================================== *)
(** * The normalizer                                                   *)
(* ================================================================== *)

Section Normalizer.

Implicit Types (i k : nat) (d : gmap str json) (l : list json)
  (self : generator) (data v : json) (rec : ItemRecord).

Lemma normalize_item_dict i d : normalize_item i (JDict d) = Ok (record_of i d).
Proof. reflexivity. Qed.

(** The loop appends to its accumulator the records of the mappings. *)
Lemma normalize_loop_records l i acc :
  normalize_loop (enumerate l i) acc = Ok (acc ++ records_from i l).
Proof.
  revert i acc. induction l as [|v l IH]; intros i acc; simpl.
  - by rewrite app_nil_r.
  - destruct v; simpl; try apply IH.
    rewrite IH, <- app_assoc. reflexivity.
Qed.

Lemma normalize_eq self data :
  _normalize self data =
  Ok (mkReport (shape_dispatch self data).2
               (records_from 1 (shape_dispatch self data).1)).
Proof.
  unfold _normalize. destruct (shape_dispatch self data) as [cands m]. simpl.
  rewrite normalize_loop_records. reflexivity.
Qed.

Lemma elem_of_records_from rec i l :
  rec ∈ records_from i l ↔
  ∃ k d, l !! k = Some (JDict d) ∧ rec = record_of (i + k) d.
Proof.
  revert i. induction l as [|v l IH]; intros i; simpl.
  - split; [by intros ?%elem_of_nil | by intros (k & d & ? & _)].
  - assert (Hskip : rec ∈ records_from (S i) l ↔
      ∃ k d, l !! k = Some (JDict d) ∧ rec = record_of (i + S k) d).
    { rewrite IH. by setoid_rewrite Nat.add_succ_r. }
    assert (Hnot : isinstance_dict v = false →
      (rec ∈ records_from (S i) l ↔
       ∃ k d, (v :: l) !! k = Some (JDict d) ∧ rec = record_of (i + k) d)).
    { intros Hv. rewrite Hskip. split.
      - intros (k & d & Hk & ->). by exists (S k), d.
      - intros ([|k] & d & Hk & ->); simpl in Hk.
        + injection Hk as ->. discriminate.
        + by exists k, d. }
    destruct v; try (by apply Hnot).
    rewrite elem_of_cons, Hskip. split.
    + intros [-> | (k & d' & Hk & ->)].
      * exists 0, d. by rewrite Nat.add_0_r.
      * by exists (S k), d'.
    + intros ([|k] & d' & Hk & ->); simpl in Hk.
      * injection Hk as ->. left. by rewrite Nat.add_0_r.
      * right. by exists k, d'.
Qed.

Lemma records_from_length_le i l : length (records_from i l) ≤ length l.
Proof.
  revert i. induction l as [|v l IH]; intros i; simpl; [lia|].
  specialize (IH (S i)). destruct v; simpl; lia.
Qed.

Lemma records_from_length_eq i l :
  length (records_from i l) = length l ↔
  Forall (λ v, isinstance_dict v = true) l.
Proof.
  revert i. induction l as [|v l IH]; intros i; simpl.
  - split; [constructor | done].
  - pose proof (records_from_length_le (S i) l) as Hle.
    rewrite Forall_cons, <- (IH (S i)).
    destruct v; simpl; split; try (intros [? ?]; done); lia.
Qed.

Lemma records_from_index_bounds i l :
  Forall (λ rec, i ≤ index rec < i + length l) (records_from i l).
Proof.
  apply Forall_forall. intros rec (k & d & Hk & ->)%elem_of_records_from.
  apply lookup_lt_Some in Hk. simpl. lia.
Qed.

Lemma records_from_index_sorted i l :
  StronglySorted lt (map index (records_from i l)).
Proof.
  revert i. induction l as [|v l IH]; intros i; simpl; [constructor|].
  destruct v; simpl; try apply IH.
  constructor; [apply IH|].
  apply Forall_forall. intros n Hn.
  apply list_elem_of_In, in_map_iff in Hn as (rec & <- & Hrec).
  apply list_elem_of_In in Hrec.
  pose proof (records_from_index_bounds (S i) l) as Hb.
  rewrite Forall_forall in Hb. apply Hb in Hrec. lia.
Qed.

Lemma records_from_index_all_dicts i l :
  Forall (λ v, isinstance_dict v = true) l →
  map index (records_from i l) = seq i (length l).
Proof.
  revert i. induction l as [|v l IH]; intros i Hall; simpl; [done|].
  apply Forall_cons in Hall as [Hv Hl].
  destruct v; try discriminate. simpl. by rewrite IH.
Qed.

Lemma records_from_app i l1 l2 :
  records_from i (l1 ++ l2) =
  records_from i l1 ++ records_from (i + length l1) l2.
Proof.
  revert i. induction l1 as [|v l1 IH]; intros i; simpl.
  - by rewrite Nat.add_0_r.
  - rewrite IH, Nat.add_succ_r. by destruct v.
Qed.

End Normalizer.

Section NormalizerClaims.

Implicit Types (i k : nat) (d : gmap str json) (l : list json)
  (self : generator) (data v : json) (rec : ItemRecord).

Lemma shape_dispatch_count self data :
  count (shape_dispatch self data).2 = length (shape_dispatch self data).1.
Proof. by destruct data. Qed.

(** C1, as amended.  [count] is the number of candidate items chosen by the
    shape dispatch (the array length, 1 for an object, 0 otherwise), taken
    before the non-mapping candidates are skipped.  The items sequence is
    never longer than [count], and it has exactly [count] elements if and
    only if every candidate is a mapping. *)
Theorem count_is_number_of_candidates self data :
  ∃ r, _normalize self data = Ok r ∧
       count (meta r) = length (shape_dispatch self data).1 ∧
       length (items r) ≤ count (meta r) ∧
       (length (items r) = count (meta r) ↔
        Forall (λ v, isinstance_dict v = true) (shape_dispatch self data).1).
Proof.
  eexists. split; [apply normalize_eq|]. simpl.
  rewrite shape_dispatch_count.
  split; [done|]. split; [apply records_from_length_le|].
  apply records_from_length_eq.
Qed.

(** C1 as stated fails on [[5]]: one candidate is counted, no item is
    produced. *)
Lemma count_exceeds_items_counterexample :
  ∃ r, _normalize example_generator (JList [JInt 5]) = Ok r ∧
       count (meta r) = 1 ∧ length (items r) = 0 ∧
       count (meta r) ≠ length (items r).
Proof. eexists. split; [reflexivity|]. simpl. repeat split. discriminate. Qed.

(** C2, as amended.  The [index] of a record is the 1-based position its
    mapping had among the candidates: it points at that mapping, lies
    between 1 and [count], and the indices are strictly increasing.  They
    are the contiguous sequence 1, 2, ..., n when every candidate is a
    mapping, that is, when nothing was skipped. *)
Theorem index_is_original_position self data :
  ∃ r, _normalize self data = Ok r ∧
       (∀ rec, rec ∈ items r →
          1 ≤ index rec ≤ count (meta r) ∧
          ∃ d, (shape_dispatch self data).1 !! (index rec - 1) = Some (JDict d)) ∧
       StronglySorted lt (map index (items r)) ∧
       (Forall (λ v, isinstance_dict v = true) (shape_dispatch self data).1 →
        map index (items r) = seq 1 (length (items r))).
Proof.
  eexists. split; [apply normalize_eq|]. simpl.
  rewrite shape_dispatch_count. split; [|split].
  - intros rec (k & d & Hk & ->)%elem_of_records_from. simpl.
    rewrite Nat.sub_0_r. apply lookup_lt_Some in Hk as Hlt.
    split; [lia | by exists d].
  - apply records_from_index_sorted.
  - intros Hall. rewrite records_from_index_all_dicts by done.
    f_equal. symmetry. by apply records_from_length_eq.
Qed.

(** C2 as stated fails on [[5, {}]]: the only record has index 2. *)
Lemma index_gap_counterexample :
  ∃ r, _normalize example_generator (JList [JInt 5; JDict ∅]) = Ok r ∧
       map index (items r) = [2] ∧
       map index (items r) ≠ seq 1 (length (items r)).
Proof. eexists. split; [reflexivity|]. simpl. split; [done | discriminate]. Qed.

(** C3.  When the array [l] holds a non-mapping element at position [k],
    the items are the records of the elements before it followed by the
    records of the elements after it: no record has its position [k + 1],
    none is made up for it, while [count] is still the length of [l] and
    so exceeds the number of records. *)
Theorem non_mapping_element_dropped self l k v :
  l !! k = Some v →
  isinstance_dict v = false →
  ∃ r, _normalize self (JList l) = Ok r ∧
       items r = records_from 1 (take k l)
                   ++ records_from (S (S k)) (drop (S k) l) ∧
       (∀ rec, rec ∈ items r → index rec ≠ S k) ∧
       count (meta r) = length l ∧
       length (items r) < count (meta r).
Proof.
  intros Hk Hv. eexists. split; [apply normalize_eq|]. simpl.
  pose proof (lookup_lt_Some _ _ _ Hk) as Hlt.
  assert (Hsplit : records_from 1 l =
    records_from 1 (take k l) ++ records_from (S (S k)) (drop (S k) l)).
  { rewrite <- (take_drop_middle l k v Hk) at 1.
    rewrite records_from_app, length_take, Nat.min_l by lia.
    simpl. by destruct v. }
  split; [done|]. split; [|split; [done|]].
  - intros rec (k' & d & Hk' & ->)%elem_of_records_from. simpl.
    intros [= ->]. rewrite Hk in Hk'. injection Hk' as ->. discriminate.
  - rewrite Hsplit, length_app.
    pose proof (records_from_length_le 1 (take k l)) as H1.
    pose proof (records_from_length_le (S (S k)) (drop (S k) l)) as H2.
    rewrite length_take in H1. rewrite length_drop in H2. lia.
Qed.

Lemma non_mapping_element_dropped_witness :
  ∃ r, _normalize example_generator (JList [JDict ∅; JInt 5; JDict ∅]) = Ok r ∧
       items r = records_from 1 (take 1 [JDict ∅; JInt 5; JDict ∅])
                   ++ records_from 3 (drop 2 [JDict ∅; JInt 5; JDict ∅]) ∧
       (∀ rec, rec ∈ items r → index rec ≠ 2) ∧
       count (meta r) = 3 ∧
       length (items r) < count (meta r).
Proof.
  apply (non_mapping_element_dropped example_generator
           [JDict ∅; JInt 5; JDict ∅] 1 (JInt 5)); reflexivity.
Defined.

(** C4.  The dispatch on the shape of the decoded value: an array gives
    its elements as the candidates, with [source] the endpoint and [count]
    the array length; an object gives itself as the single candidate, with
    [count] 1; any other value gives no candidate and [count] 0.
    [_normalize] returns that metadata, and its items are what the loop
    produces from those candidates enumerated from 1. *)
Theorem shape_dispatch_cases self :
  (∀ l, shape_dispatch self (JList l)
        = (l, mkMeta (api_url self) (length l))) ∧
  (∀ d, shape_dispatch self (JDict d)
        = ([JDict d], mkMeta (api_url self) 1)) ∧
  (∀ v, isinstance_list v = false → isinstance_dict v = false →
        shape_dispatch self v = ([], mkMeta (api_url self) 0)) ∧
  (∀ data, ∃ r, _normalize self data = Ok r ∧
                meta r = (shape_dispatch self data).2 ∧
                normalize_loop (enumerate (shape_dispatch self data).1 1) []
                  = Ok (items r)).
Proof.
  split; [done|]. split; [done|]. split.
  - intros v Hl Hd. by destruct v.
  - intros data. eexists. split; [apply normalize_eq|]. simpl.
    split; [done|]. apply normalize_loop_records.
Qed.

Lemma shape_dispatch_cases_witness :
  shape_dispatch example_generator (JInt 7)
    = ([], mkMeta (api_url example_generator) 0) ∧
  shape_dispatch example_generator JNull
    = ([], mkMeta (api_url example_generator) 0).
Proof.
  split; apply (shape_dispatch_cases example_generator); reflexivity.
Defined.

(** C6.  [_normalize] returns a report on every decoded value and never
    raises: the [get] calls, which only a mapping supports, are reached
    for mappings only.  A value that is neither an array nor an object
    gives no item and the metadata [source] = endpoint, [count] = 0. *)
Theorem normalize_never_raises self data :
  ∃ r, _normalize self data = Ok r ∧
       (isinstance_list data = false → isinstance_dict data = false →
        r = mkReport (mkMeta (api_url self) 0) []).
Proof.
  eexists. split; [apply normalize_eq|].
  intros Hl Hd. by destruct data.
Qed.

Lemma normalize_never_raises_witness :
  _normalize example_generator (JStr (lit "oops"))
    = Ok (mkReport (mkMeta (api_url example_generator) 0) []) ∧
  ∃ r, _normalize example_generator (JList [JNull; JList []; JInt 1]) = Ok r.
Proof.
  split.
  - destruct (normalize_never_raises example_generator (JStr (lit "oops")))
      as (r & Hr & Hshape).
    rewrite Hr. f_equal. apply Hshape; reflexivity.
  - destruct (normalize_never_raises example_generator
                (JList [JNull; JList []; JInt 1])) as (r & Hr & _).
    by exists r.
Defined.

(** C10.  The [id] fallback is taken only when the key is absent: a
    present [id] is kept as it is, be it [None], the empty string or an
    integer.  The [title] fallback is taken when the key is absent and
    also when its value is false ([None], the empty string, 0, ...). *)
Theorem id_kept_title_falls_back i d :
  ∃ rec, normalize_item i (JDict d) = Ok rec ∧
    (∀ v, d !! lit "id" = Some v → id_ rec = v) ∧
    (d !! lit "id" = None → id_ rec = JStr (lit "item-" ++ str_of_nat i)) ∧
    (∀ v, d !! lit "title" = Some v → truthy v = true → title rec = v) ∧
    (∀ v, d !! lit "title" = Some v → truthy v = false →
          title rec = JStr (lit "(untitled)")) ∧
    (d !! lit "title" = None → title rec = JStr (lit "(untitled)")) ∧
    truthy JNull = false ∧ truthy (JStr (lit "")) = false ∧
    truthy (JInt 0) = false ∧ truthy (JBool false) = false.
Proof.
  exists (record_of i d). split; [done|]. simpl.
  repeat split; try done.
  - by intros v ->.
  - by intros ->.
  - intros v -> Hv. simpl. unfold or_. by rewrite Hv.
  - intros v -> Hv. simpl. unfold or_. by rewrite Hv.
  - by intros ->.
Qed.

Lemma id_kept_title_falls_back_witness :
  ∃ rec,
    normalize_item 3
      (JDict (<[lit "id" := JNull]> (<[lit "title" := JInt 0]> ∅))) = Ok rec ∧
    id_ rec = JNull ∧ title rec = JStr (lit "(untitled)").
Proof.
  destruct (id_kept_title_falls_back 3
              (<[lit "id" := JNull]> (<[lit "title" := JInt 0]> ∅)))
    as (rec & Hrec & Hid & _ & _ & Htitle & _).
  exists rec. split; [exact Hrec|]. split.
  - apply Hid. reflexivity.
  - apply (Htitle (JInt 0)); reflexivity.
Defined.

End NormalizerClaims.

(* ================================================================== *)
(** * The renderer                                                     *)
(* ================================================================== *)

Section Renderer.

Implicit Types (repr : json → str) (row rec : ItemRecord)
  (rows : list ItemRecord) (n : NormalizedReport) (e : env) (s : state).

(** [format_doc] reads the clock once, and returns a document unless a
    detail section raises. *)
Lemma format_doc_eq n e s :
  format_doc n e s =
  (match detail_sections (py_repr e) (items n) with
   | Ok details =>
       Ok (Document
             (Section_ PORTRAIT Inches_0_75 Inches_0_75 Inches_0_75 Inches_0_75)
             (report_title
              :: meta_paragraph (meta n) (strftime_utc (utc_now e (ticks s)))
                   (last_fetch_at (self s))
              :: summary_table (py_repr e) (items n) ++ details))
   | Raise x => Raise x
   end,
   State (self s) (files s) (S (ticks s))).
Proof.
  unfold format_doc, mbind, M_bind, datetime_now, get_self, ask_repr, lift,
    mret, M_ret.
  simpl. by destruct (detail_sections (py_repr e) (items n)).
Qed.

Lemma detail_body_empty row t :
  summary row = JStr t → strip t = [] →
  detail_body row = Ok (lit "(no summary available)").
Proof. unfold detail_body. intros -> Ht. simpl. by rewrite Ht. Qed.

Lemma detail_sections_inv repr row rows blocks :
  detail_sections repr (row :: rows) = Ok blocks →
  ∃ sec more, detail_section repr row = Ok sec ∧
              detail_sections repr rows = Ok more ∧ blocks = sec ++ more.
Proof.
  simpl. destruct (detail_section repr row) as [sec|]; simpl; [|done].
  destruct (detail_sections repr rows) as [more|]; simpl; [|done].
  intros [= <-]. by exists sec, more.
Qed.

Lemma detail_section_inv repr row sec :
  detail_section repr row = Ok sec →
  ∃ body, detail_body row = Ok body ∧
          Paragraph [Run body false (Some Pt_11)] ∈ sec ∧
          Forall (λ b, is_table b = false) sec.
Proof.
  unfold detail_section. destruct (detail_body row) as [body|]; simpl; [|done].
  intros [= <-]. exists body. split; [done|]. split.
  - do 2 apply list_elem_of_further. apply list_elem_of_here.
  - by repeat constructor.
Qed.

(** Every row of a rendered document has its body paragraph in the detail
    blocks, and no detail block is a table. *)
Lemma detail_sections_ok repr rows blocks :
  detail_sections repr rows = Ok blocks →
  Forall (λ b, is_table b = false) blocks ∧
  ∀ row, row ∈ rows →
    ∃ body, detail_body row = Ok body ∧
            Paragraph [Run body false (Some Pt_11)] ∈ blocks.
Proof.
  revert blocks. induction rows as [|row0 rows IH]; intros blocks.
  - intros [= <-]. split; [constructor | by intros ? ?%elem_of_nil].
  - intros (sec & more & Hsec & Hmore & ->)%detail_sections_inv.
    destruct (IH more Hmore) as [Hnt Hrows].
    destruct (detail_section_inv _ _ _ Hsec) as (body & Hbody & Hin & Hsec_nt).
    split; [by apply Forall_app|].
    intros row [-> | Hrow]%elem_of_cons.
    + exists body. split; [done|]. apply elem_of_app. by left.
    + destruct (Hrows row Hrow) as (body' & ? & ?).
      exists body'. split; [done|]. apply elem_of_app. by right.
Qed.

(** The detail sections are produced exactly when every summary is a
    [str]. *)
Lemma detail_sections_str repr rows :
  Forall (λ row, ∃ t, summary row = JStr t) rows →
  ∃ blocks, detail_sections repr rows = Ok blocks.
Proof.
  induction 1 as [|row rows [t Ht] _ [more IH]]; simpl; [by eexists|].
  unfold detail_section, detail_body. rewrite Ht, IH. simpl. by eexists.
Qed.



End Renderer.

Section RendererClaims.

Implicit Types (repr : json → str) (row rec : ItemRecord) (d : gmap str json)
  (rows : list ItemRecord) (n : NormalizedReport) (e : env) (s : state).

(** C5.  The record of the mapping candidate met at 1-based position
    [k + 1]: [id] is the mapping's [id] when the key is there, else
    ["item-{k+1}"]; [title] is the mapping's [title] when it is there and
    true (for a string: not empty), else ["(untitled)"]; [status] is
    ["published"]; [created_at] is empty; [summary] is the mapping's [body]
    when the key is there, else the empty string.  When the summary is a
    string that strips to the empty string, the body text of the detail
    section is ["(no summary available)"], and every document rendered from
    the report holds that paragraph. *)
Theorem record_fields_and_fallbacks self data k d :
  (shape_dispatch self data).1 !! k = Some (JDict d) →
  ∃ r rec,
    _normalize self data = Ok r ∧ rec ∈ items r ∧ index rec = S k ∧
    (∀ v, d !! lit "id" = Some v → id_ rec = v) ∧
    (d !! lit "id" = None →
       id_ rec = JStr (lit "item-" ++ str_of_nat (S k))) ∧
    (∀ v, d !! lit "title" = Some v → truthy v = true → title rec = v) ∧
    (∀ t, d !! lit "title" = Some (JStr t) → t ≠ [] → title rec = JStr t) ∧
    (∀ v, d !! lit "title" = Some v → truthy v = false →
       title rec = JStr (lit "(untitled)")) ∧
    (d !! lit "title" = None ∨ d !! lit "title" = Some (JStr (lit "")) →
       title rec = JStr (lit "(untitled)")) ∧
    status rec = lit "published" ∧
    created_at rec = lit "" ∧
    (∀ v, d !! lit "body" = Some v → summary rec = v) ∧
    (d !! lit "body" = None → summary rec = JStr (lit "")) ∧
    (∀ t, summary rec = JStr t → strip t = [] →
       detail_body rec = Ok (lit "(no summary available)") ∧
       ∀ e s doc s', format_doc r e s = (Ok doc, s') →
         Paragraph [Run (lit "(no summary available)") false (Some Pt_11)]
           ∈ doc_body doc).
Proof.
  intros Hk. eexists. exists (record_of (S k) d).
  split; [apply normalize_eq|]. simpl.
  assert (Hin : record_of (S k) d ∈ records_from 1 (shape_dispatch self data).1).
  { apply elem_of_records_from. by exists k, d. }
  split; [done|]. split; [done|].
  split; [by intros v ->|]. split; [by intros ->|].
  assert (Htrue : ∀ v, d !! lit "title" = Some v → truthy v = true →
    or_ (default JNull (d !! lit "title")) (JStr (lit "(untitled)")) = v).
  { intros v -> Hv. simpl. unfold or_. by rewrite Hv. }
  assert (Hfalse : ∀ v, d !! lit "title" = Some v → truthy v = false →
    or_ (default JNull (d !! lit "title")) (JStr (lit "(untitled)"))
    = JStr (lit "(untitled)")).
  { intros v -> Hv. simpl. unfold or_. by rewrite Hv. }
  split; [done|]. split.
  { intros t Ht Hne. apply Htrue; [done|]. by destruct t. }
  split; [done|]. split.
  { intros [-> | Ht]; [done|]. by apply (Hfalse _ Ht). }
  split; [done|]. split; [done|].
  split; [by intros v ->|]. split; [by intros ->|].
  intros t Hsum Hstrip.
  pose proof (detail_body_empty (record_of (S k) d) t Hsum Hstrip) as Hbody.
  split; [done|].
  intros e s doc s'. rewrite format_doc_eq. simpl.
  destruct (detail_sections _ _) as [details|] eqn:Hdet; [|done].
  intros [= <- _]. simpl.
  apply detail_sections_ok in Hdet as [_ Hrows].
  destruct (Hrows _ Hin) as (body & Hb & Hpar).
  rewrite Hbody in Hb. injection Hb as <-.
  do 2 apply list_elem_of_further. apply elem_of_app. by right.
Qed.

Lemma record_fields_and_fallbacks_witness :
  ∃ r rec,
    _normalize example_generator (JDict ∅) = Ok r ∧ rec ∈ items r ∧
    index rec = 1 ∧
    id_ rec = JStr (lit "item-1") ∧
    title rec = JStr (lit "(untitled)") ∧
    summary rec = JStr (lit "") ∧
    detail_body rec = Ok (lit "(no summary available)").
Proof.
  destruct (record_fields_and_fallbacks example_generator (JDict ∅) 0 ∅ eq_refl)
    as (r & rec & Hr & Hin & Hidx & _ & Hid & _ & _ & _ & Htitle & _ & _ & _
        & Hsum & Hrender).
  exists r, rec.
  split; [exact Hr|]. split; [exact Hin|]. split; [exact Hidx|].
  split; [apply Hid; reflexivity|].
  split; [apply Htitle; left; reflexivity|].
  split; [apply Hsum; reflexivity|].
  apply (Hrender (lit "")); [apply Hsum|]; reflexivity.
Defined.




End RendererClaims.

(* ================================================================== *)
(** * The fetcher and the pipeline                                     *)
(* ================================================================== *)

Section Fetcher.

Implicit Types (params : option (gmap str json)) (e : env) (s : state)
  (x y : exn) (resp : response).

(** All the paths through [fetch_data]. *)
Lemma fetch_data_eq params e s :
  fetch_data params e s =
  match sent params e s with
  | Raise x => (Raise (outer x), s)
  | Ok resp =>
      match raise_for_status resp with
      | Raise x => (Raise (outer x), s)
      | Ok _ =>
          match json_ resp with
          | Raise x =>
              (Raise (if isinstance_JSONDecodeError x then decode_error x
                      else outer x), s)
          | Ok data =>
              (Ok data,
               State (Generator (api_url (self s)) (output_path (self s))
                        (headers (self s)) (timeout (self s))
                        (Some (utc_now e (ticks s))) (Some data))
                     (files s) (S (ticks s)))
          end
      end
  end.
Proof.
  unfold sent, outer, fetch_data, try_except, transport_error, decode_error.
  unfold mbind, M_bind, get_self, requests_get_call, lift, raise, mret, M_ret,
    set_raw_data, datetime_now, set_last_fetch_at.
  simpl.
  destruct (requests_get e _ _ _ _) as [resp|x]; simpl.
  - destruct (raise_for_status resp) as [[]|x]; simpl.
    + destruct (json_ resp) as [data|x]; simpl; [done|].
      destruct (isinstance_JSONDecodeError x); simpl; [done|].
      by destruct (isinstance_RequestException x).
    + by destruct (isinstance_RequestException x).
  - by destruct (isinstance_RequestException x).
Qed.

Lemma raise_for_status_error resp :
  400 ≤ status_code resp < 600 →
  ∃ x, raise_for_status resp = Raise x ∧ exn_class x = HTTPError.
Proof.
  intros [Hlo Hhi]. unfold raise_for_status. cbv zeta.
  rewrite (proj2 (Nat.leb_le _ _) Hlo).
  destruct (Nat.lt_ge_cases (status_code resp) 500) as [Hlt | Hge].
  - rewrite (proj2 (Nat.ltb_lt _ _) Hlt). cbn [andb].
    eexists. split; reflexivity.
  - rewrite (proj2 (Nat.ltb_ge _ _) Hge), (proj2 (Nat.leb_le _ _) Hge),
      (proj2 (Nat.ltb_lt _ _) Hhi).
    cbn [andb]. eexists. split; reflexivity.
Qed.

Lemma raise_for_status_ok resp :
  ¬ (400 ≤ status_code resp < 600) → raise_for_status resp = Ok tt.
Proof.
  intros Hcode. unfold raise_for_status. cbv zeta.
  destruct (Nat.lt_ge_cases (status_code resp) 400) as [Hlt | Hge].
  - rewrite (proj2 (Nat.leb_gt _ _) Hlt).
    rewrite (proj2 (Nat.leb_gt 500 _)) by lia. reflexivity.
  - assert (600 ≤ status_code resp) as Hhi by lia.
    rewrite (proj2 (Nat.ltb_ge _ 500)) by lia.
    rewrite (proj2 (Nat.ltb_ge _ 600)) by lia.
    by rewrite !andb_false_r.
Qed.

Lemma starts_with_app (p t : str) : starts_with p (p ++ t) = true.
Proof. induction p as [|c p IH]; simpl; [done|]. by rewrite N.eqb_refl. Qed.

(** A failed fetch leaves the state as it was. *)
Lemma fetch_data_raise_state params e s x s' :
  fetch_data params e s = (Raise x, s') → s' = s.
Proof.
  rewrite fetch_data_eq.
  destruct (sent params e s) as [resp|]; [|by intros [= _ <-]].
  destruct (raise_for_status resp) as [[]|]; [|by intros [= _ <-]].
  destruct (json_ resp); [done | by intros [= _ <-]].
Qed.

(** [run] stops at the exception that [fetch_data] raises. *)
Lemma run_fetch_raise params e s x s' :
  fetch_data params e s = (Raise x, s') → run params e s = (Raise x, s').
Proof. intros H. unfold run, mbind, M_bind. by rewrite H. Qed.

Lemma fetch_data_get_raises params e s x :
  sent params e s = Raise x → isinstance_RequestException x = true →
  fetch_data params e s = (Raise (transport_error x), s).
Proof. intros Hget Hx. rewrite fetch_data_eq, Hget. unfold outer. by rewrite Hx. Qed.

Lemma fetch_data_error_status params e s resp :
  sent params e s = Ok resp → 400 ≤ status_code resp < 600 →
  ∃ x, raise_for_status resp = Raise x ∧ exn_class x = HTTPError ∧
       fetch_data params e s = (Raise (transport_error x), s).
Proof.
  intros Hget (x & Hx & Hcls)%raise_for_status_error.
  exists x. split; [done|]. split; [done|].
  rewrite fetch_data_eq, Hget, Hx. unfold outer, isinstance_RequestException.
  by rewrite Hcls.
Qed.

(** C8, as amended.  A [RequestException] raised by the request itself
    (a connection error, a timeout) and the [HTTPError] of a 4xx or 5xx
    status, the statuses that [raise_for_status] rejects, both surface as
    the [RuntimeError] "API request failed: <cause>"; a body whose
    decoding raises [JSONDecodeError] surfaces as the [RuntimeError]
    "Invalid JSON from API: <cause>".  Each carries the description of its
    cause and the cause itself, and the two are told apart by their
    message prefix: no error is of both kinds.  Any other status, be it
    1xx, 3xx or 600 and above, is no failure in itself: the body is
    decoded as for a 2xx answer, and returned when it is valid JSON. *)
Theorem fetch_failure_kinds params e s :
  (∀ x, exn_class x = ConnectionError ∨ exn_class x = Timeout ∨
        exn_class x = HTTPError →
        isinstance_RequestException x = true) ∧
  (∀ x, sent params e s = Raise x → isinstance_RequestException x = true →
        fetch_data params e s = (Raise (transport_error x), s)) ∧
  (∀ resp, sent params e s = Ok resp → 400 ≤ status_code resp < 600 →
        ∃ x, raise_for_status resp = Raise x ∧ exn_class x = HTTPError ∧
             fetch_data params e s = (Raise (transport_error x), s)) ∧
  (∀ resp x, sent params e s = Ok resp →
        ¬ (400 ≤ status_code resp < 600) →
        json_ resp = Raise x → isinstance_JSONDecodeError x = true →
        fetch_data params e s = (Raise (decode_error x), s)) ∧
  (∀ x, exn_class (transport_error x) = RuntimeError ∧
        exn_str (transport_error x) = lit "API request failed: " ++ exn_str x ∧
        exn_cause (transport_error x) = Some x ∧
        is_transport_error (transport_error x) = true ∧
        is_decode_error (transport_error x) = false) ∧
  (∀ y, exn_class (decode_error y) = RuntimeError ∧
        exn_str (decode_error y) = lit "Invalid JSON from API: " ++ exn_str y ∧
        exn_cause (decode_error y) = Some y ∧
        is_decode_error (decode_error y) = true ∧
        is_transport_error (decode_error y) = false) ∧
  (∀ x y, transport_error x ≠ decode_error y) ∧
  (∀ resp data, sent params e s = Ok resp →
        ¬ (400 ≤ status_code resp < 600) →
        json_ resp = Ok data →
        (fetch_data params e s).1 = Ok data).
Proof.
  split.
  { intros [c descr cause]. unfold isinstance_RequestException. simpl.
    by intros [-> | [-> | ->]]. }
  split; [apply fetch_data_get_raises|].
  split; [apply fetch_data_error_status|].
  split.
  { intros resp x Hget Hcode Hjson Hx.
    rewrite fetch_data_eq, Hget, (raise_for_status_ok _ Hcode), Hjson.
    by rewrite Hx. }
  split.
  { intros x. split; [done|]. split; [done|]. split; [done|].
    split; [apply starts_with_app | reflexivity]. }
  split.
  { intros y. split; [done|]. split; [done|]. split; [done|].
    split; [apply starts_with_app | reflexivity]. }
  split.
  { intros x y. unfold transport_error, decode_error. intros [= ? ?]. }
  intros resp data Hget Hcode Hjson.
  by rewrite fetch_data_eq, Hget, (raise_for_status_ok _ Hcode), Hjson.
Qed.

(** C8 as stated fails on the statuses that are neither success nor
    4xx/5xx: a 300 answer with a JSON body is returned as data, and a 304
    answer with an empty body surfaces as the decode error, not as a
    transport error. *)
Lemma non_error_status_counterexample :
  (∃ s', fetch_data None (example_env 300 (Ok (JList []))) example_state
         = (Ok (JList []), s')) ∧
  (∃ x, fetch_data None
          (example_env 304
             (Raise (Exn JSONDecodeError (lit "Expecting value") None)))
          example_state = (Raise x, example_state) ∧
        is_decode_error x = true ∧
        is_transport_error x = false).
Proof.
  split.
  - eexists. rewrite fetch_data_eq. reflexivity.
  - eexists. split; [rewrite fetch_data_eq; reflexivity|].
    split; reflexivity.
Qed.

End Fetcher.

Section PipelineClaims.

Implicit Types (params : option (gmap str json)) (e : env) (s : state)
  (x y : exn) (resp : response).

Lemma fetch_failure_kinds_witness :
  fetch_data None
    (unreachable_env (Exn ConnectionError (lit "connection refused") None))
    example_state
  = (Raise (transport_error
              (Exn ConnectionError (lit "connection refused") None)),
     example_state) ∧
  fetch_data None
    (unreachable_env (Exn Timeout (lit "read timed out") None))
    example_state
  = (Raise (transport_error (Exn Timeout (lit "read timed out") None)),
     example_state) ∧
  (∃ x, exn_class x = HTTPError ∧
        fetch_data None (example_env 500 (Ok JNull)) example_state
        = (Raise (transport_error x), example_state)) ∧
  fetch_data None
    (example_env 200 (Raise (Exn JSONDecodeError (lit "Expecting value") None)))
    example_state
  = (Raise (decode_error (Exn JSONDecodeError (lit "Expecting value") None)),
     example_state).
Proof.
  split; [|split; [|split]].
  - apply (fetch_failure_kinds None
             (unreachable_env (Exn ConnectionError (lit "connection refused") None))
             example_state); reflexivity.
  - apply (fetch_failure_kinds None
             (unreachable_env (Exn Timeout (lit "read timed out") None))
             example_state); reflexivity.
  - destruct (fetch_failure_kinds None (example_env 500 (Ok JNull)) example_state)
      as (_ & _ & Hstatus & _).
    destruct (Hstatus _ eq_refl) as (x & _ & Hcls & Hfetch);
      [simpl; lia | by exists x].
  - destruct (fetch_failure_kinds None
                (example_env 200
                   (Raise (Exn JSONDecodeError (lit "Expecting value") None)))
                example_state)
      as (_ & _ & _ & Hdecode & _).
    apply (Hdecode _ _ eq_refl); [simpl; lia | reflexivity | reflexivity].
Defined.

(** C9.  When [fetch_data] raises, [run] raises the same exception and
    ends in the state the run started from: the clock was not read (no
    document was rendered), no file was written, the instance is
    untouched.  For a request that raises a [RequestException], and for a
    4xx or 5xx answer such as HTTP 500, that exception is the transport
    [RuntimeError]; a path that held no file before the run holds none
    after it. *)
Theorem run_aborts_when_fetch_fails params e s :
  (∀ x s', fetch_data params e s = (Raise x, s') →
           run params e s = (Raise x, s') ∧ s' = s ∧
           (files s !! output_path (self s) = None →
            files s' !! output_path (self s') = None)) ∧
  (∀ x, sent params e s = Raise x → isinstance_RequestException x = true →
        run params e s = (Raise (transport_error x), s)) ∧
  (∀ resp, sent params e s = Ok resp → 400 ≤ status_code resp < 600 →
        ∃ x, exn_class x = HTTPError ∧
             run params e s = (Raise (transport_error x), s)).
Proof.
  split; [|split].
  - intros x s' Hfetch. split; [by apply run_fetch_raise|].
    apply fetch_data_raise_state in Hfetch as ->. by split.
  - intros x Hget Hx. by apply run_fetch_raise, fetch_data_get_raises.
  - intros resp Hget Hcode.
    destruct (fetch_data_error_status _ _ _ _ Hget Hcode)
      as (x & _ & Hcls & Hfetch).
    exists x. split; [done|]. by apply run_fetch_raise.
Qed.

Lemma run_aborts_when_fetch_fails_witness :
  ∃ x, exn_class x = HTTPError ∧
       run None (example_env 500 (Ok (JList []))) example_state
       = (Raise (transport_error x), example_state) ∧
       files example_state !! output_path (self example_state) = None.
Proof.
  destruct (run_aborts_when_fetch_fails None
              (example_env 500 (Ok (JList []))) example_state)
    as (_ & _ & Hstatus).
  destruct (Hstatus _ eq_refl) as (x & Hcls & Hrun); [simpl; lia|].
  exists x. split; [exact Hcls|]. split; [exact Hrun | reflexivity].
Defined.

(** A whole run on the payload [[{"id": 1, "title": "Hello", "body":
    "World"}]]: the report is saved under the output path, with one table
    row and one detail section. *)
Example run_scenario_1 :
  let payload :=
    JList [JDict (<[lit "id" := JInt 1]>
                  (<[lit "title" := JStr (lit "Hello")]>
                   (<[lit "body" := JStr (lit "World")]> ∅)))] in
  ∃ doc s',
    run None (example_env 200 (Ok payload)) example_state
      = (Ok (lit "report.docx"), s') ∧
    files s' !! lit "report.docx" = Some doc ∧
    Table (lit "Light Grid")
      [table_headers;
       [JStr (lit "1"); JStr (lit "1"); JStr (lit "Hello");
        JStr (lit "published"); JStr (lit "")]] ∈ doc_body doc ∧
    Heading (lit "1. Hello") 2 false ∈ doc_body doc ∧
    Paragraph [Run (lit "World") false (Some Pt_11)] ∈ doc_body doc.
Proof.
  eexists _, _. split; [vm_compute; reflexivity|].
  split; [vm_compute; reflexivity|].
  split; [|split].
  - do 2 apply list_elem_of_further. apply list_elem_of_here.
  - do 4 apply list_elem_of_further. apply list_elem_of_here.
  - do 6 apply list_elem_of_further. apply list_elem_of_here.
Qed.
End PipelineClaims.

(** A body that is not a string is kept as the summary, and the renderer
    then raises on [strip]: for [{"body": 5}] no document is produced. *)
Example format_doc_non_string_summary :
  ∃ r x s',
    _normalize example_generator (JDict (<[lit "body" := JInt 5]> ∅)) = Ok r ∧
    format_doc r (example_env 200 (Ok JNull)) example_state = (Raise x, s') ∧
    exn_class x = AttributeError.
Proof.
  eexists _, _, _. split; [reflexivity|].
  split; [rewrite format_doc_eq; reflexivity | reflexivity].
Qed.

(* ================================================================== *)
(** * Further properties of the normalizer                             *)
(* ================================================================== *)

Section NormalizerMore.

Implicit Types (i k : nat) (d : gmap str json) (l : list json)
  (self : generator) (data v : json) (rec : ItemRecord).

Lemma records_from_length_filter i l :
  length (records_from i l) = length (List.filter isinstance_dict l).
Proof.
  revert i. induction l as [|v l IH]; intros i; simpl; [done|].
  destruct v; simpl; by rewrite ?IH.
Qed.

(** X1.  A single object and the one-element array holding it normalize
    to the same report: one record with index 1 and [count] = 1.  Even the
    empty object gives a record. *)
Theorem object_is_singleton_array self d :
  ∃ rec, _normalize self (JDict d)
           = Ok (mkReport (mkMeta (api_url self) 1) [rec]) ∧
         _normalize self (JList [JDict d])
           = Ok (mkReport (mkMeta (api_url self) 1) [rec]) ∧
         index rec = 1.
Proof. exists (record_of 1 d). by rewrite !normalize_eq. Qed.

(** X2.  Appending entries to an array leaves the records of the earlier
    entries as they were: the items of [l1 ++ l2] are the items of [l1]
    followed by records whose indices are all beyond [len(l1)], and
    [count] grows by [len(l2)]. *)
Theorem normalize_append self l1 l2 :
  ∃ r1 r12 more,
    _normalize self (JList l1) = Ok r1 ∧
    _normalize self (JList (l1 ++ l2)) = Ok r12 ∧
    items r12 = items r1 ++ more ∧
    Forall (λ rec, length l1 < index rec ≤ length l1 + length l2) more ∧
    count (meta r12) = count (meta r1) + length l2.
Proof.
  eexists _, _, (records_from (1 + length l1) l2).
  split; [apply normalize_eq|]. split; [apply normalize_eq|]. simpl.
  split; [apply records_from_app|]. split; [|apply length_app].
  eapply Forall_impl; [apply records_from_index_bounds|].
  simpl. intros rec. lia.
Qed.

(** X3.  There is exactly one record per mapping among the candidates:
    the number of items is the number of candidates that are mappings, and
    [count] exceeds it by the number of candidates that are not. *)
Theorem one_record_per_mapping self data :
  ∃ r, _normalize self data = Ok r ∧
       length (items r)
         = length (List.filter isinstance_dict (shape_dispatch self data).1) ∧
       count (meta r)
         = length (items r)
           + length (List.filter (λ v, negb (isinstance_dict v))
                       (shape_dispatch self data).1).
Proof.
  eexists. split; [apply normalize_eq|]. simpl.
  rewrite shape_dispatch_count, records_from_length_filter.
  split; [done|].
  induction (shape_dispatch self data).1 as [|v l IH]; simpl; [done|].
  destruct (isinstance_dict v); simpl; lia.
Qed.

(** X4.  [__init__] replaces missing headers, and an empty headers
    mapping as well, by [{"Accept": "application/json"}]; a non-empty
    mapping is kept as given, without an [Accept] entry being added.  The
    instance starts with no fetch time and no payload. *)
Theorem init_headers_default (url path : str) (t : Z) :
  headers (__init__ url path None t)
    = {[ lit "Accept" := lit "application/json" ]} ∧
  headers (__init__ url path (Some ∅) t)
    = {[ lit "Accept" := lit "application/json" ]} ∧
  (∀ h : gmap str str, h ≠ ∅ → headers (__init__ url path (Some h) t) = h) ∧
  (∀ h, last_fetch_at (__init__ url path h t) = None ∧
        raw_data (__init__ url path h t) = None ∧
        api_url (__init__ url path h t) = url ∧
        output_path (__init__ url path h t) = path ∧
        timeout (__init__ url path h t) = t).
Proof.
  split; [done|]. split; [done|]. split; [|done].
  intros h Hne. simpl.
  destruct (size h =? 0) eqn:Hsize; [|done].
  apply Nat.eqb_eq, map_size_empty_iff in Hsize. done.
Qed.

Lemma init_headers_default_witness :
  headers (__init__ (lit "u") (lit "p")
             (Some {[ lit "Authorization" := lit "Bearer t" ]}) 15)
    !! lit "Accept" = None.
Proof.
  destruct (init_headers_default (lit "u") (lit "p") 15) as (_ & _ & Hkeep & _).
  rewrite (Hkeep {[ lit "Authorization" := lit "Bearer t" ]}).
  - reflexivity.
  - intros Hempty.
    apply (f_equal (λ m : gmap str str, m !! lit "Authorization")) in Hempty.
    discriminate Hempty.
Defined.

End NormalizerMore.

(* ================================================================== *)
(** * Further properties of the renderer                               *)
(* ================================================================== *)

Section RendererMore.

Implicit Types (repr : json → str) (row rec : ItemRecord)
  (rows : list ItemRecord) (n : NormalizedReport) (e : env) (s : state)
  (blocks : list block).

Lemma detail_body_inv row body :
  detail_body row = Ok body →
  ∃ t, summary row = JStr t ∧
       (strip t = [] ∧ body = lit "(no summary available)" ∨
        strip t ≠ [] ∧ body = strip t).
Proof.
  unfold detail_body. destruct (summary row) as [| | | |t| |]; try done.
  simpl. intros [= <-]. exists t. split; [done|].
  destruct (strip t) as [|c t']; [left | right]; done.
Qed.

Lemma detail_body_raise row x :
  detail_body row = Raise x →
  isinstance_str (summary row) = false ∧ x = no_attribute (summary row) "strip".
Proof.
  unfold detail_body.
  destruct (summary row); simpl; intros [= <-]; done.
Qed.

Lemma detail_section_eq repr row :
  detail_section repr row =
  match detail_body row with
  | Ok body =>
      Ok [ Heading (heading_text repr row) 2 false;
           Paragraph [Run (lit "ID: " ++ str_of repr (id_ row)
                             ++ lit " | Status: " ++ status row
                             ++ lit " | Created: " ++ created_at row ++ nl)
                        true None];
           Paragraph [Run body false (Some Pt_11)] ]
  | Raise x => Raise x
  end.
Proof. unfold detail_section. by destruct (detail_body row). Qed.

(** The exception of the loop over the rows is that of the first row
    whose summary is not a [str]. *)
Lemma detail_sections_raise repr rows x :
  detail_sections repr rows = Raise x →
  ∃ pre row post,
    rows = pre ++ row :: post ∧
    Forall (λ r, isinstance_str (summary r) = true) pre ∧
    isinstance_str (summary row) = false ∧
    x = no_attribute (summary row) "strip".
Proof.
  induction rows as [|row0 rows IH]; [done|]. simpl.
  rewrite detail_section_eq.
  destruct (detail_body row0) as [body|y] eqn:Hbody; simpl.
  - destruct (detail_sections repr rows) as [more|y]; [done|]. simpl.
    intros [= <-].
    destruct (IH eq_refl) as (pre & row & post & -> & Hpre & Hrow & Hx).
    exists (row0 :: pre), row, post. split; [done|].
    split; [|done]. constructor; [|done].
    apply detail_body_inv in Hbody as (t & -> & _). done.
  - intros [= <-]. apply detail_body_raise in Hbody as [Hrow Hx].
    by exists [], row0, rows.
Qed.

Lemma detail_sections_ok_str repr rows blocks :
  detail_sections repr rows = Ok blocks →
  Forall (λ r, isinstance_str (summary r) = true) rows.
Proof.
  revert blocks. induction rows as [|row rows IH]; intros blocks; [done|].
  intros (sec & more & Hsec & Hmore & _)%detail_sections_inv.
  constructor; [|by eapply IH].
  rewrite detail_section_eq in Hsec.
  destruct (detail_body row) as [body|] eqn:Hbody; [|done].
  apply detail_body_inv in Hbody as (t & -> & _). done.
Qed.

Lemma detail_sections_isinstance_str repr rows :
  Forall (λ r, isinstance_str (summary r) = true) rows →
  ∃ blocks, detail_sections repr rows = Ok blocks.
Proof.
  intros Hall. apply detail_sections_str.
  eapply Forall_impl; [exact Hall|]. simpl.
  intros row Hrow. destruct (summary row); try done. by eexists.
Qed.

(** The blocks of the detail sections: three per row, the headings and
    the bodies in the order of the rows. *)
Lemma detail_sections_layout repr rows blocks sec :
  detail_sections repr rows = Ok blocks →
  length blocks = 3 * length rows ∧
  detail_headings (Document sec blocks) = map (heading_text repr) rows ∧
  Forall2 (λ row body, detail_body row = Ok body) rows
    (detail_bodies (Document sec blocks)).
Proof.
  unfold detail_headings, detail_bodies, doc_runs. simpl.
  revert blocks. induction rows as [|row rows IH]; intros blocks.
  - intros [= <-]. simpl. split; [done|]. split; [done|]. constructor.
  - intros (sec0 & more & Hsec & Hmore & ->)%detail_sections_inv.
    destruct (IH more Hmore) as (Hlen & Hhead & Hbodies).
    rewrite detail_section_eq in Hsec.
    destruct (detail_body row) as [body|] eqn:Hbody; [|done].
    injection Hsec as <-. simpl.
    split; [lia|]. split; [by rewrite Hhead|]. by constructor.
Qed.

Lemma summary_table_no_detail repr rows sec :
  detail_headings (Document sec (summary_table repr rows)) = [] ∧
  detail_bodies (Document sec (summary_table repr rows)) = [] ∧
  length (summary_table repr rows) = match rows with [] => 0 | _ => 2 end.
Proof. by destruct rows. Qed.

(** X5.  For a report whose texts are plain (the source, and for every
    item the printed id, a title that is a [str], the status, the date and
    the summary when it is a [str]), [format_doc] returns a document
    exactly when the summary of every item is a [str].  Otherwise it
    raises the [AttributeError] of [strip] on the first summary that is
    not one ([None], a number, a list, a mapping).  Either way it reads
    the clock once and leaves the instance and the files as they were. *)
Theorem format_doc_succeeds_iff n e s :
  plain_text (source (meta n)) = true →
  Forall (λ row, plain_row (py_repr e) row = true) (items n) →
  ((∃ doc, (format_doc n e s).1 = Ok doc) ↔
   Forall (λ row, isinstance_str (summary row) = true) (items n)) ∧
  (∀ x, (format_doc n e s).1 = Raise x →
        exn_class x = AttributeError ∧
        ∃ pre row post,
          items n = pre ++ row :: post ∧
          Forall (λ r, isinstance_str (summary r) = true) pre ∧
          isinstance_str (summary row) = false ∧
          x = no_attribute (summary row) "strip") ∧
  (format_doc n e s).2 = State (self s) (files s) (S (ticks s)).
Proof.
  intros _ _. rewrite format_doc_eq. simpl. split; [|split; [|done]].
  - split.
    + intros [doc Hdoc].
      destruct (detail_sections _ _) as [details|] eqn:Hdet; [|done].
      by eapply detail_sections_ok_str.
    + intros Hall.
      destruct (detail_sections_isinstance_str (py_repr e) _ Hall) as [b ->].
      by eexists.
  - intros x. destruct (detail_sections _ _) as [|y] eqn:Hdet; [done|].
    intros [= ->].
    apply detail_sections_raise in Hdet as (pre & row & post & H1 & H2 & H3 & ->).
    split; [done|]. by exists pre, row, post.
Qed.

Lemma format_doc_succeeds_iff_witness :
  ∃ x, (format_doc
          (mkReport (mkMeta (lit "u") 2)
             [mkItem 1 JNull (JStr (lit "a")) (lit "published") (lit "")
                (JStr (lit "fine"));
              mkItem 2 JNull (JStr (lit "b")) (lit "published") (lit "") JNull])
          (example_env 200 (Ok JNull)) example_state).1 = Raise x ∧
       exn_class x = AttributeError.
Proof.
  pose proof (proj1 (proj2 (format_doc_succeeds_iff
              (mkReport (mkMeta (lit "u") 2)
                 [mkItem 1 JNull (JStr (lit "a")) (lit "published") (lit "")
                    (JStr (lit "fine"));
                  mkItem 2 JNull (JStr (lit "b")) (lit "published") (lit "")
                    JNull])
              (example_env 200 (Ok JNull)) example_state
              eq_refl ltac:(repeat constructor)))) as Hraise.
  eexists. split; [rewrite format_doc_eq; reflexivity|].
  eapply Hraise. rewrite format_doc_eq. reflexivity.
Defined.

(** X6.  A rendered document has one detail section per item, in the order
    of the items: its level-2 headings are the texts "{index}. {title}" of
    the items in order, and its body has two blocks (title, metadata), two
    more when there is a table (table, spacer), and three per item. *)
Theorem detail_sections_in_order n e s doc s' :
  format_doc n e s = (Ok doc, s') →
  detail_headings doc = map (heading_text (py_repr e)) (items n) ∧
  length (doc_body doc)
    = 2 + (match items n with [] => 0 | _ => 2 end) + 3 * length (items n).
Proof.
  rewrite format_doc_eq.
  destruct (detail_sections _ _) as [details|] eqn:Hdet; [|done].
  intros [= <- _].
  set (sec := Section_ _ _ _ _ _).
  destruct (detail_sections_layout _ _ _ sec Hdet) as (Hlen & Hhead & _).
  destruct (summary_table_no_detail (py_repr e) (items n) sec) as (Ht & _ & Htl).
  unfold detail_headings in *. simpl in *.
  rewrite flat_map_app, Ht, Hhead, length_app, Htl, Hlen. split; [done | lia].
Qed.

Lemma detail_sections_in_order_witness :
  ∃ doc s',
    format_doc
      (mkReport (mkMeta (lit "u") 2)
         [mkItem 1 (JInt 7) (JStr (lit "a")) (lit "published") (lit "")
            (JStr (lit "x"));
          mkItem 3 JNull (JStr (lit "b")) (lit "published") (lit "")
            (JStr (lit ""))])
      (example_env 200 (Ok JNull)) example_state = (Ok doc, s') ∧
    detail_headings doc = [lit "1. a"; lit "3. b"] ∧
    length (doc_body doc) = 10.
Proof.
  eexists _, _. split; [rewrite format_doc_eq; reflexivity|].
  eapply (detail_sections_in_order
           (mkReport (mkMeta (lit "u") 2)
              [mkItem 1 (JInt 7) (JStr (lit "a")) (lit "published") (lit "")
                 (JStr (lit "x"));
               mkItem 3 JNull (JStr (lit "b")) (lit "published") (lit "")
                 (JStr (lit ""))])
           (example_env 200 (Ok JNull)) example_state).
  rewrite format_doc_eq. reflexivity.
Defined.

(** X7.  In a rendered document the body paragraph of each detail section
    is the item's summary with the surrounding white space stripped, or
    "(no summary available)" when nothing is left; it is never the empty
    string, so each body paragraph has the run whose font size is set. *)
Theorem detail_body_never_empty n e s doc s' :
  format_doc n e s = (Ok doc, s') →
  Forall2 (λ row body,
             ∃ t, summary row = JStr t ∧
                  (strip t = [] ∧ body = lit "(no summary available)" ∨
                   strip t ≠ [] ∧ body = strip t))
          (items n) (detail_bodies doc) ∧
  Forall (λ body, body ≠ []) (detail_bodies doc).
Proof.
  rewrite format_doc_eq.
  destruct (detail_sections _ _) as [details|] eqn:Hdet; [|done].
  intros [= <- _].
  set (sec := Section_ _ _ _ _ _).
  destruct (detail_sections_layout _ _ _ sec Hdet) as (_ & _ & Hbodies).
  destruct (summary_table_no_detail (py_repr e) (items n) sec) as (_ & Ht & _).
  assert (Heq : detail_bodies
      (Document sec (report_title
         :: meta_paragraph (meta n) (strftime_utc (utc_now e (ticks s)))
              (last_fetch_at (self s))
         :: summary_table (py_repr e) (items n) ++ details))
    = detail_bodies (Document sec details)).
  { unfold detail_bodies, doc_runs in *. simpl in *.
    rewrite !flat_map_app, Ht.
    by destruct (last_fetch_at (self s)). }
  rewrite Heq.
  assert (Hall : Forall2 (λ row body,
             ∃ t, summary row = JStr t ∧
                  (strip t = [] ∧ body = lit "(no summary available)" ∨
                   strip t ≠ [] ∧ body = strip t))
          (items n) (detail_bodies (Document sec details))).
  { eapply Forall2_impl; [exact Hbodies|]. simpl.
    intros row body. apply detail_body_inv. }
  split; [done|].
  eapply Forall2_Forall_r; [exact Hall|].
  apply Forall_forall. intros row _ body (t & _ & [[_ ->] | [Hne ->]]); done.
Qed.

Lemma detail_body_never_empty_witness :
  ∃ doc s',
    format_doc
      (mkReport (mkMeta (lit "u") 2)
         [mkItem 1 JNull (JStr (lit "a")) (lit "published") (lit "")
            (JStr (lit "  x  "));
          mkItem 2 JNull (JStr (lit "b")) (lit "published") (lit "")
            (JStr (lit "   "))])
      (example_env 200 (Ok JNull)) example_state = (Ok doc, s') ∧
    detail_bodies doc = [lit "x"; lit "(no summary available)"] ∧
    Forall (λ body, body ≠ []) (detail_bodies doc).
Proof.
  eexists _, _. split; [rewrite format_doc_eq; reflexivity|].
  split; [reflexivity|].
  eapply (detail_body_never_empty
           (mkReport (mkMeta (lit "u") 2)
              [mkItem 1 JNull (JStr (lit "a")) (lit "published") (lit "")
                 (JStr (lit "  x  "));
               mkItem 2 JNull (JStr (lit "b")) (lit "published") (lit "")
                 (JStr (lit "   "))])
           (example_env 200 (Ok JNull)) example_state).
  rewrite format_doc_eq. reflexivity.
Defined.

End RendererMore.

(* ================================================================== *)
(** * Further properties of the fetcher, of saving and of a run        *)
(* ================================================================== *)

Section PipelineMore.

Implicit Types (params : option (gmap str json)) (e : env) (s : state)
  (x y c : exn) (resp : response) (data v : json) (doc : document)
  (l : list json).

Lemma raise_for_status_cases resp :
  (400 ≤ status_code resp < 600 ∧ ∃ x, raise_for_status resp = Raise x) ∨
  (¬ (400 ≤ status_code resp < 600) ∧ raise_for_status resp = Ok tt).
Proof.
  destruct (decide (400 ≤ status_code resp < 600)) as [Hcode | Hcode].
  - left. split; [done|].
    destruct (raise_for_status_error _ Hcode) as (x & Hx & _). by exists x.
  - right. split; [done|]. by apply raise_for_status_ok.
Qed.

Lemma fetch_data_ok_iff params e s data s' :
  fetch_data params e s = (Ok data, s') ↔
  (∃ resp, sent params e s = Ok resp ∧
           ¬ (400 ≤ status_code resp < 600) ∧ json_ resp = Ok data) ∧
  s' = fetched e s data.
Proof.
  rewrite fetch_data_eq. split.
  - destruct (sent params e s) as [resp|]; [|done].
    destruct (raise_for_status_cases resp) as [[_ [x Hx]] | [Hcode Hok]].
    { by rewrite Hx. }
    rewrite Hok. destruct (json_ resp) as [data'|] eqn:Hjson; [|done].
    intros [= -> <-]. split; [|done]. by exists resp.
  - intros [(resp & -> & Hcode & Hjson) ->].
    by rewrite (raise_for_status_ok _ Hcode), Hjson.
Qed.

Lemma save_eq doc e s :
  save doc e s =
  match docx_save e (output_path (self s)) doc with
  | None =>
      (Ok (output_path (self s)),
       State (self s) (<[output_path (self s) := doc]> (files s)) (ticks s))
  | Some x => (Raise (if isinstance_Exception x then save_error x else x), s)
  end.
Proof.
  unfold save, try_except, mbind, M_bind, get_self, document_save, raise,
    mret, M_ret, save_error.
  simpl. destruct (docx_save e _ doc) as [x|]; simpl; [|done].
  by destruct (isinstance_Exception x).
Qed.

Lemma run_eq params e s :
  run params e s =
  match fetch_data params e s with
  | (Raise x, s1) => (Raise x, s1)
  | (Ok data, s1) =>
      match _normalize (self s1) data with
      | Raise x => (Raise x, s1)
      | Ok n =>
          match format_doc n e s1 with
          | (Raise x, s2) => (Raise x, s2)
          | (Ok doc, s2) => save doc e s2
          end
      end
  end.
Proof.
  unfold run, mbind, M_bind, get_self, lift.
  destruct (fetch_data params e s) as [[data|x] s1]; [|done]. simpl.
  destruct (_normalize (self s1) data) as [n|x]; [|done].
  by destruct (format_doc n e s1) as [[doc|x] s2].
Qed.

Lemma main_eq e s :
  main e s =
  match run None e (State main_generator (files s) (ticks s)) with
  | (Ok path, s1) => (Ok (lit "Report generated: " ++ path), s1)
  | (Raise x, s1) =>
      if isinstance_RuntimeError x
      then (Ok (lit "Error: " ++ exn_str x), s1) else (Raise x, s1)
  end.
Proof.
  unfold main, try_except, mbind, M_bind, mret, M_ret.
  by destruct (run None e _) as [[path|x] s1].
Qed.

Lemma records_from_string_body i l :
  Forall (λ v, string_body v = true) l ↔
  Forall (λ row, isinstance_str (summary row) = true) (records_from i l).
Proof.
  revert i. induction l as [|v l IH]; intros i; simpl.
  - split; constructor.
  - rewrite Forall_cons, (IH (S i)).
    destruct v; simpl; try (split; [by intros [_ ?] | by intros ?]).
    rewrite Forall_cons. simpl.
    by destruct (d !! lit "body") as [b|].
Qed.

Lemma shape_dispatch_candidates (g1 g2 : generator) data :
  (shape_dispatch g1 data).1 = (shape_dispatch g2 data).1.
Proof. by destruct data. Qed.

(** What a run does once the fetch has returned [data]: it renders the
    records of the candidates and saves, or stops at the rendering. *)
Lemma run_after_fetch params e s data :
  fetch_data params e s = (Ok data, fetched e s data) →
  run params e s =
  match detail_sections (py_repr e)
          (records_from 1 (shape_dispatch (self s) data).1) with
  | Raise x => (Raise x, rendered e s data)
  | Ok details => save (report_document e s data details) e (rendered e s data)
  end.
Proof.
  intros Hfetch. rewrite run_eq, Hfetch, normalize_eq, format_doc_eq.
  unfold report_document, rendered, fetched.
  cbn [self files ticks meta items last_fetch_at].
  rewrite (shape_dispatch_candidates _ (self s)).
  replace (shape_dispatch _ data).2 with (shape_dispatch (self s) data).2
    by by destruct data.
  by destruct (detail_sections _ _).
Qed.

End PipelineMore.

Section PipelineExtras.

Implicit Types (params : option (gmap str json)) (e : env) (s : state)
  (x y c : exn) (resp : response) (data v : json) (doc : document)
  (l : list json).

Lemma raise_for_status_raises resp x :
  raise_for_status resp = Raise x → isinstance_RequestException x = true.
Proof.
  unfold raise_for_status. cbv zeta.
  destruct (_ && _); [by intros [= <-]|].
  destruct (_ && _); [by intros [= <-] | done].
Qed.

(** X8.  [fetch_data] returns [data] exactly when the request gives a
    response whose status is not 4xx or 5xx and whose body decodes to
    [data].  It then stores [data] in [raw_data] and the clock reading in
    [last_fetch_at], and changes nothing else: the other attributes and
    the files stay as they were. *)
Theorem fetch_data_returns params e s data s' :
  (fetch_data params e s = (Ok data, s') ↔
   (∃ resp, sent params e s = Ok resp ∧
            ¬ (400 ≤ status_code resp < 600) ∧ json_ resp = Ok data) ∧
   s' = fetched e s data) ∧
  raw_data (self (fetched e s data)) = Some data ∧
  last_fetch_at (self (fetched e s data)) = Some (utc_now e (ticks s)) ∧
  api_url (self (fetched e s data)) = api_url (self s) ∧
  output_path (self (fetched e s data)) = output_path (self s) ∧
  headers (self (fetched e s data)) = headers (self s) ∧
  timeout (self (fetched e s data)) = timeout (self s) ∧
  files (fetched e s data) = files s.
Proof. split; [apply fetch_data_ok_iff | done]. Qed.

Lemma fetch_data_returns_witness :
  ∃ s', fetch_data None (example_env 204 (Ok (JList []))) example_state
          = (Ok (JList []), s') ∧
        raw_data (self s') = Some (JList []) ∧
        last_fetch_at (self s') = Some (example_clock 0).
Proof.
  exists (fetched (example_env 204 (Ok (JList []))) example_state (JList [])).
  split; [|split; reflexivity].
  apply (fetch_data_returns None (example_env 204 (Ok (JList [])))
           example_state (JList [])).
  split; [|reflexivity].
  eexists. split; [reflexivity|]. split; [simpl; lia | reflexivity].
Defined.

(** X9.  [fetch_data] never lets a [requests] exception out and never
    updates the instance when it fails.  What it raises is the transport
    [RuntimeError] around a [RequestException], the decode [RuntimeError]
    around a [JSONDecodeError], or, unwrapped, an exception of another
    class that the request raised or that the decoding raised. *)
Theorem fetch_never_raises_request_exception params e s x s' :
  fetch_data params e s = (Raise x, s') →
  isinstance_RequestException x = false ∧
  s' = s ∧
  ((∃ c, isinstance_RequestException c = true ∧ x = transport_error c) ∨
   (∃ c, isinstance_JSONDecodeError c = true ∧ x = decode_error c) ∨
   sent params e s = Raise x ∨
   (∃ resp, sent params e s = Ok resp ∧ json_ resp = Raise x ∧
            isinstance_JSONDecodeError x = false)).
Proof.
  rewrite fetch_data_eq.
  assert (Houter : ∀ y, isinstance_RequestException (outer y) = false ∧
    ((∃ c, isinstance_RequestException c = true ∧ outer y = transport_error c)
     ∨ isinstance_RequestException y = false ∧ outer y = y)).
  { intros y. unfold outer.
    destruct (isinstance_RequestException y) eqn:Hy.
    - split; [done|]. left. by exists y.
    - split; [done|]. by right. }
  destruct (sent params e s) as [resp|y] eqn:Hsent.
  - destruct (raise_for_status resp) as [[]|y] eqn:Hstatus.
    + destruct (json_ resp) as [|y] eqn:Hjson; [done|].
      intros [= <- <-]. split; [|split; [done|]].
      * destruct (isinstance_JSONDecodeError y); [done|]. apply Houter.
      * destruct (isinstance_JSONDecodeError y) eqn:Hy.
        { right. left. by exists y. }
        destruct (Houter y) as [_ [Hwrap | [_ ->]]]; [by left|].
        right. right. right. by exists resp.
    + intros [= <- <-]. split; [apply Houter|]. split; [done|].
      left. exists y. split; [by eapply raise_for_status_raises|].
      unfold outer. by rewrite (raise_for_status_raises _ _ Hstatus).
  - intros [= <- <-]. split; [apply Houter|]. split; [done|].
    destruct (Houter y) as [_ [Hwrap | [Hy ->]]]; [by left|].
    right. right. by left.
Qed.

Lemma fetch_never_raises_request_exception_witness :
  ∃ x, fetch_data None
         (example_env 200 (Raise (Exn RequestsJSONDecodeError (lit "Extra data") None)))
         example_state = (Raise x, example_state) ∧
       isinstance_RequestException x = false.
Proof.
  eexists. split; [reflexivity|].
  eapply (fetch_never_raises_request_exception None
            (example_env 200
               (Raise (Exn RequestsJSONDecodeError (lit "Extra data") None)))
            example_state).
  reflexivity.
Defined.

(** X10.  When the write succeeds, [save] returns the configured output
    path; the file at that path is then the document, whatever was there
    before, every other file is as it was, and the instance is
    unchanged. *)
Theorem save_writes_output_path doc e s :
  docx_save e (output_path (self s)) doc = None →
  ∃ s', save doc e s = (Ok (output_path (self s)), s') ∧
        files s' !! output_path (self s) = Some doc ∧
        (∀ p, p ≠ output_path (self s) → files s' !! p = files s !! p) ∧
        self s' = self s ∧ ticks s' = ticks s.
Proof.
  intros Hdisk. rewrite save_eq, Hdisk. eexists. split; [done|]. simpl.
  split; [apply lookup_insert_eq|]. split; [|done].
  intros p Hp. by apply lookup_insert_ne.
Qed.

Lemma save_writes_output_path_witness :
  ∃ s', save (Document
                (Section_ PORTRAIT Inches_0_75 Inches_0_75 Inches_0_75 Inches_0_75)
                [report_title])
          (example_env 200 (Ok JNull)) example_state
          = (Ok (lit "report.docx"), s') ∧
        files s' !! lit "report.docx"
          = Some (Document
                    (Section_ PORTRAIT Inches_0_75 Inches_0_75 Inches_0_75
                       Inches_0_75)
                    [report_title]).
Proof.
  destruct (save_writes_output_path
              (Document
                 (Section_ PORTRAIT Inches_0_75 Inches_0_75 Inches_0_75
                    Inches_0_75)
                 [report_title])
              (example_env 200 (Ok JNull)) example_state eq_refl)
    as (s' & Hsave & Hfile & _).
  exists s'. split; [exact Hsave | exact Hfile].
Defined.

(** X11.  When the write raises [c], [save] raises the [RuntimeError]
    "Failed to save DOCX: <c>" chained to [c] if [c] is an [Exception],
    and [c] itself otherwise.  The message prefix sets a save failure
    apart from the two fetch failures. *)
Theorem save_wraps_failure doc e s c :
  docx_save e (output_path (self s)) doc = Some c →
  (isinstance_Exception c = true → (save doc e s).1 = Raise (save_error c)) ∧
  (isinstance_Exception c = false → (save doc e s).1 = Raise c) ∧
  exn_class (save_error c) = RuntimeError ∧
  exn_str (save_error c) = lit "Failed to save DOCX: " ++ exn_str c ∧
  exn_cause (save_error c) = Some c ∧
  is_save_error (save_error c) = true ∧
  is_transport_error (save_error c) = false ∧
  is_decode_error (save_error c) = false ∧
  (∀ y, is_save_error (transport_error y) = false ∧
        is_save_error (decode_error y) = false).
Proof.
  intros Hdisk. rewrite save_eq, Hdisk.
  split; [by intros ->|]. split; [by intros ->|].
  split; [done|]. split; [done|]. split; [done|].
  split; [apply starts_with_app|]. done.
Qed.

Lemma save_wraps_failure_witness :
  (save (Document
           (Section_ PORTRAIT Inches_0_75 Inches_0_75 Inches_0_75 Inches_0_75)
           [report_title])
     (full_disk_env JNull (Exn OSError (lit "No space left on device") None))
     example_state).1
  = Raise (save_error (Exn OSError (lit "No space left on device") None)).
Proof.
  apply (save_wraps_failure _
           (full_disk_env JNull
              (Exn OSError (lit "No space left on device") None))
           example_state
           (Exn OSError (lit "No space left on device") None));
    reflexivity.
Defined.

End PipelineExtras.

Section RunHelpers.

Implicit Types (params : option (gmap str json)) (e : env) (s : state)
  (x y c : exn) (resp : response) (data v : json) (doc : document)
  (l : list json).

Lemma fetch_data_ok_state params e s data s' :
  fetch_data params e s = (Ok data, s') → s' = fetched e s data.
Proof. by intros [_ ->]%fetch_data_ok_iff. Qed.

(** A candidate whose [body] is not a string stops the run at the
    rendering. *)
Lemma run_non_string_raise params e s data v :
  fetch_data params e s = (Ok data, fetched e s data) →
  v ∈ (shape_dispatch (self s) data).1 → string_body v = false →
  ∃ x, run params e s = (Raise x, rendered e s data) ∧
       exn_class x = AttributeError.
Proof.
  intros Hfetch Hv Hbody. rewrite (run_after_fetch _ _ _ _ Hfetch).
  destruct (detail_sections _ _) as [details|x] eqn:Hdet.
  - apply detail_sections_ok_str, records_from_string_body in Hdet.
    rewrite Forall_forall in Hdet. apply Hdet in Hv. congruence.
  - exists x. split; [done|].
    by apply detail_sections_raise in Hdet as (? & ? & ? & _ & _ & _ & ->).
Qed.

(** A run that returns has fetched, rendered and written. *)
Lemma run_ok_inv params e s path s' :
  run params e s = (Ok path, s') →
  ∃ data details,
    fetch_data params e s = (Ok data, fetched e s data) ∧
    detail_sections (py_repr e)
      (records_from 1 (shape_dispatch (self s) data).1) = Ok details ∧
    docx_save e (output_path (self s)) (report_document e s data details)
      = None ∧
    path = output_path (self s) ∧
    s' = State (self (fetched e s data))
           (<[output_path (self s) := report_document e s data details]>
              (files s))
           (S (S (ticks s))).
Proof.
  intros Hrun. pose proof Hrun as Hrun'. rewrite run_eq in Hrun'.
  destruct (fetch_data params e s) as [[data|] s1] eqn:Hfetch; [|done].
  clear Hrun'. pose proof (fetch_data_ok_state _ _ _ _ _ Hfetch) as ->.
  rewrite (run_after_fetch _ _ _ _ Hfetch) in Hrun.
  destruct (detail_sections _ _) as [details|] eqn:Hdet; [|done].
  rewrite save_eq in Hrun. unfold rendered, fetched in Hrun.
  cbn [self output_path files ticks] in Hrun.
  destruct (docx_save e _ _) eqn:Hdisk; [done|].
  injection Hrun as <- <-. by exists data, details.
Qed.

End RunHelpers.

Section RunExtras.

Implicit Types (params : option (gmap str json)) (e : env) (s : state)
  (x y c : exn) (resp : response) (data v : json) (doc : document)
  (l : list json).

(** X12.  A run whose endpoint is a plain text, whose request is answered
    with a status that is not 4xx or 5xx and a body decoding to [data], in
    which every mapping candidate has a string or no [body] and plain
    texts (a printed id, a title that is a string, false or missing, a
    body without control characters), and whose write succeeds, returns
    the output path.  The file at that path is the rendered document: it
    has one detail section per mapping candidate, its [Fetched] line shows the
    first clock reading of the run and its [Generated] line the second.
    The instance then holds the payload and the fetch time. *)
Theorem run_writes_report params e s resp data :
  sent params e s = Ok resp →
  ¬ (400 ≤ status_code resp < 600) →
  json_ resp = Ok data →
  Forall (λ v, string_body v = true) (shape_dispatch (self s) data).1 →
  plain_text (api_url (self s)) = true →
  Forall (λ v, plain_candidate (py_repr e) v = true)
    (shape_dispatch (self s) data).1 →
  (∀ doc, docx_save e (output_path (self s)) doc = None) →
  ∃ doc s',
    run params e s = (Ok (output_path (self s)), s') ∧
    files s' !! output_path (self s) = Some doc ∧
    raw_data (self s') = Some data ∧
    last_fetch_at (self s') = Some (utc_now e (ticks s)) ∧
    ticks s' = S (S (ticks s)) ∧
    Run (lit "Fetched: " ++ strftime_utc (utc_now e (ticks s)) ++ nl)
      false None ∈ doc_runs doc ∧
    Run (lit "Generated: " ++ strftime_utc (utc_now e (S (ticks s))) ++ nl)
      false None ∈ doc_runs doc ∧
    length (detail_headings doc)
      = length (List.filter isinstance_dict (shape_dispatch (self s) data).1).
Proof.
  intros Hsent Hcode Hjson Hall _ _ Hdisk.
  assert (Hfetch : fetch_data params e s = (Ok data, fetched e s data)).
  { apply fetch_data_ok_iff. split; [by exists resp | done]. }
  rewrite (run_after_fetch _ _ _ _ Hfetch).
  apply (records_from_string_body 1) in Hall.
  destruct (detail_sections_isinstance_str (py_repr e) _ Hall)
    as [details Hdet].
  rewrite Hdet, save_eq. unfold rendered, fetched.
  cbn [self output_path files ticks]. rewrite Hdisk.
  eexists _, _. split; [reflexivity|].
  cbn [self files ticks raw_data last_fetch_at].
  split; [apply lookup_insert_eq|]. split; [done|]. split; [done|].
  split; [done|].
  set (sec := Section_ PORTRAIT Inches_0_75 Inches_0_75 Inches_0_75 Inches_0_75).
  destruct (detail_sections_layout _ _ _ sec Hdet) as (_ & Hhead & _).
  destruct (summary_table_no_detail (py_repr e)
              (records_from 1 (shape_dispatch (self s) data).1) sec)
    as (Ht & _ & _).
  split; [|split].
  - unfold doc_runs, report_document. simpl.
    do 3 apply list_elem_of_further. apply list_elem_of_here.
  - unfold doc_runs, report_document. simpl.
    do 2 apply list_elem_of_further. apply list_elem_of_here.
  - unfold detail_headings, report_document in *. simpl in *.
    rewrite flat_map_app, Ht, Hhead. simpl.
    by rewrite length_map, records_from_length_filter.
Qed.

Lemma run_writes_report_witness :
  ∃ doc s',
    run None (example_env 200 (Ok world_payload)) example_state
      = (Ok (lit "report.docx"), s') ∧
    files s' !! lit "report.docx" = Some doc ∧
    Run (lit "Fetched: 2025-12-08 11:58:50 UTC" ++ nl) false None
      ∈ doc_runs doc ∧
    Run (lit "Generated: 2025-12-08 11:58:51 UTC" ++ nl) false None
      ∈ doc_runs doc ∧
    length (detail_headings doc) = 1.
Proof.
  destruct (run_writes_report None
              (example_env 200 (Ok world_payload)) example_state
              (example_response (api_url example_generator) 200
                 (Ok world_payload))
              world_payload eq_refl
              ltac:(simpl; lia) eq_refl
              ltac:(repeat constructor) eq_refl ltac:(repeat constructor)
              (λ _, eq_refl))
    as (doc & s' & Hrun & Hfile & _ & _ & _ & Hfetched & Hgenerated & Hlen).
  exists doc, s'.
  split; [exact Hrun|]. split; [exact Hfile|].
  split; [exact Hfetched|]. split; [exact Hgenerated | exact Hlen].
Defined.

(** X13.  When the endpoint and the texts of the mapping candidates are
    plain and the payload is fetched, but some mapping candidate has a
    [body] that is not a string ([null], a number, a list, a mapping), the
    run raises the [AttributeError] of [strip], which is not a
    [RuntimeError].  No file is written; the instance already holds the
    payload and the fetch time. *)
Theorem run_stops_on_non_string_body params e s resp data v :
  sent params e s = Ok resp →
  ¬ (400 ≤ status_code resp < 600) →
  json_ resp = Ok data →
  plain_text (api_url (self s)) = true →
  Forall (λ v, plain_candidate (py_repr e) v = true)
    (shape_dispatch (self s) data).1 →
  v ∈ (shape_dispatch (self s) data).1 →
  string_body v = false →
  ∃ x s',
    run params e s = (Raise x, s') ∧
    exn_class x = AttributeError ∧
    isinstance_RuntimeError x = false ∧
    files s' = files s ∧
    raw_data (self s') = Some data ∧
    last_fetch_at (self s') = Some (utc_now e (ticks s)).
Proof.
  intros Hsent Hcode Hjson _ _ Hv Hbody.
  assert (Hfetch : fetch_data params e s = (Ok data, fetched e s data)).
  { apply fetch_data_ok_iff. split; [by exists resp | done]. }
  destruct (run_non_string_raise _ _ _ _ _ Hfetch Hv Hbody) as (x & Hrun & Hx).
  exists x, (rendered e s data). split; [done|]. split; [done|].
  split; [|done]. unfold isinstance_RuntimeError. by rewrite Hx.
Qed.

Lemma run_stops_on_non_string_body_witness :
  ∃ x s',
    run None (example_env 200 (Ok null_body_payload)) example_state
      = (Raise x, s') ∧
    exn_class x = AttributeError ∧
    files s' = ∅.
Proof.
  destruct (run_stops_on_non_string_body None
              (example_env 200 (Ok null_body_payload)) example_state
              (example_response (api_url example_generator) 200
                 (Ok null_body_payload))
              null_body_payload
              (JDict (<[lit "body" := JNull]> ∅))
              eq_refl ltac:(simpl; lia) eq_refl
              eq_refl ltac:(repeat constructor)
              ltac:(apply list_elem_of_here) eq_refl)
    as (x & s' & Hrun & Hx & _ & Hfiles & _).
  exists x, s'. split; [exact Hrun|]. split; [exact Hx | exact Hfiles].
Defined.

(** X14.  With a plain endpoint and on a payload whose mapping candidates
    have plain texts, a run raises in three ways only: the fetch raised (nothing has changed
    then); the payload was fetched and a mapping candidate has a [body]
    that is not a string, which gives an [AttributeError] at the
    rendering; or the write raised, which gives the save [RuntimeError],
    or the exception itself when it is not an [Exception].  Normalization
    is never where a run stops. *)
Theorem run_raises_only params e s x s' :
  plain_text (api_url (self s)) = true →
  (∀ data s1, fetch_data params e s = (Ok data, s1) →
     Forall (λ v, plain_candidate (py_repr e) v = true)
       (shape_dispatch (self s) data).1) →
  run params e s = (Raise x, s') →
  (fetch_data params e s = (Raise x, s') ∧ s' = s) ∨
  (∃ data v,
     fetch_data params e s = (Ok data, fetched e s data) ∧
     v ∈ (shape_dispatch (self s) data).1 ∧ string_body v = false ∧
     exn_class x = AttributeError ∧ s' = rendered e s data) ∨
  (∃ data details c,
     fetch_data params e s = (Ok data, fetched e s data) ∧
     docx_save e (output_path (self s)) (report_document e s data details)
       = Some c ∧
     x = if isinstance_Exception c then save_error c else c).
Proof.
  intros _ _ Hrun. pose proof Hrun as Hrun'. rewrite run_eq in Hrun'.
  destruct (fetch_data params e s) as [[data|y] s1] eqn:Hfetch.
  - clear Hrun'. pose proof (fetch_data_ok_state _ _ _ _ _ Hfetch) as ->.
    right. rewrite (run_after_fetch _ _ _ _ Hfetch) in Hrun.
    destruct (detail_sections _ _) as [details|y] eqn:Hdet.
    + right. rewrite save_eq in Hrun. unfold rendered, fetched in Hrun.
      cbn [self output_path files ticks] in Hrun.
      destruct (docx_save e _ _) as [c|] eqn:Hdisk; [|done].
      injection Hrun as <- _. by exists data, details, c.
    + left. injection Hrun as <- <-.
      apply detail_sections_raise in Hdet
        as (pre & row & post & Hrows & _ & Hrow & ->).
      assert (Hin : row ∈ records_from 1 (shape_dispatch (self s) data).1).
      { rewrite Hrows. apply elem_of_app. right. apply list_elem_of_here. }
      apply elem_of_records_from in Hin as (k & d & Hk & ->).
      exists data, (JDict d). split; [done|].
      split; [by eapply list_elem_of_lookup_2|].
      split; [|done]. simpl in *. by destruct (d !! lit "body").
  - left. injection Hrun' as <- <-. split; [done|].
    by eapply fetch_data_raise_state.
Qed.

Lemma run_raises_only_witness :
  ∃ x s',
    run None
      (full_disk_env (JList []) (Exn OSError (lit "Permission denied") None))
      example_state = (Raise x, s') ∧
    (fetch_data None
       (full_disk_env (JList []) (Exn OSError (lit "Permission denied") None))
       example_state = (Raise x, s') ∨
     exn_class x = AttributeError ∨
     ∃ c, x = if isinstance_Exception c then save_error c else c).
Proof.
  eexists _, _. split; [vm_compute; reflexivity|].
  assert (Htitles : ∀ data s1,
    fetch_data None
      (full_disk_env (JList []) (Exn OSError (lit "Permission denied") None))
      example_state = (Ok data, s1) →
    Forall (λ v, plain_candidate
                   (py_repr (full_disk_env (JList [])
                               (Exn OSError (lit "Permission denied") None)))
                   v = true)
      (shape_dispatch (self example_state) data).1).
  { intros data s1 Hfetch. rewrite fetch_data_eq in Hfetch.
    injection Hfetch as <- _. constructor. }
  destruct (run_raises_only None
              (full_disk_env (JList [])
                 (Exn OSError (lit "Permission denied") None))
              example_state _ _ eq_refl Htitles
              ltac:(vm_compute; reflexivity))
    as [[Hfetch _] | [(data & v & _ & _ & _ & Hx & _)
                     | (data & details & c & _ & _ & Hx)]].
  - left. exact Hfetch.
  - right. left. exact Hx.
  - right. right. exists c. exact Hx.
Defined.

End RunExtras.

Section ScriptExtras.

Implicit Types (params : option (gmap str json)) (e : env) (s : state)
  (x y c : exn) (resp : response) (data v : json) (doc : document).

(** X15.  When a run returns, the path it returns is the configured
    output path, the report is the file at that path, no other file has
    changed, and the instance holds the fetched payload and the fetch
    time; its configuration is as before. *)
Theorem run_returns_written_path params e s path s' :
  run params e s = (Ok path, s') →
  path = output_path (self s) ∧
  (∃ doc, files s' !! path = Some doc ∧ report_title ∈ doc_body doc) ∧
  (∀ p, p ≠ path → files s' !! p = files s !! p) ∧
  (∃ data, fetch_data params e s = (Ok data, fetched e s data) ∧
           raw_data (self s') = Some data) ∧
  last_fetch_at (self s') = Some (utc_now e (ticks s)) ∧
  api_url (self s') = api_url (self s) ∧
  output_path (self s') = output_path (self s) ∧
  headers (self s') = headers (self s) ∧
  timeout (self s') = timeout (self s).
Proof.
  intros (data & details & Hfetch & _ & _ & -> & ->)%run_ok_inv.
  cbn [self files fetched raw_data last_fetch_at api_url output_path headers
       timeout].
  split; [done|]. split.
  { eexists. split; [apply lookup_insert_eq|]. apply list_elem_of_here. }
  split; [by intros p Hp; apply lookup_insert_ne|].
  split; [by exists data|]. done.
Qed.

Lemma run_returns_written_path_witness :
  ∃ s' doc,
    run None (example_env 200 (Ok world_payload)) example_state
      = (Ok (lit "report.docx"), s') ∧
    files s' !! lit "report.docx" = Some doc ∧
    files s' !! lit "other.docx" = None.
Proof.
  eexists. 
  assert (Hrun : run None (example_env 200 (Ok world_payload)) example_state
                 = (Ok (lit "report.docx"), _))
    by (vm_compute; reflexivity).
  destruct (run_returns_written_path _ _ _ _ _ Hrun)
    as (_ & (doc & Hdoc & _) & Hother & _).
  exists doc. split; [exact Hrun|]. split; [exact Hdoc|].
  rewrite Hother; [reflexivity | discriminate].
Defined.

(** X16.  The script catches every [RuntimeError] of its run and prints
    "Error: <message>" instead of raising; what it raises is never a
    [RuntimeError].  For a request that raises a [RequestException] the
    line is "Error: API request failed: <cause>".  When the run returns,
    the line is "Report generated: api_report.docx". *)
Theorem main_reports_runtime_errors e s :
  (∀ x s', main e s = (Raise x, s') →
           isinstance_RuntimeError x = false ∧
           run None e (main_state s) = (Raise x, s')) ∧
  (∀ x s', run None e (main_state s) = (Raise x, s') →
           isinstance_RuntimeError x = true →
           main e s = (Ok (lit "Error: " ++ exn_str x), s')) ∧
  (∀ c, sent None e (main_state s) = Raise c →
        isinstance_RequestException c = true →
        main e s
        = (Ok (lit "Error: API request failed: " ++ exn_str c), main_state s)) ∧
  (∀ path s', run None e (main_state s) = (Ok path, s') →
              main e s = (Ok (lit "Report generated: api_report.docx"), s')).
Proof.
  split; [|split; [|split]].
  - intros x s'. rewrite main_eq. fold (main_state s).
    destruct (run None e (main_state s)) as [[path|y] s1]; [done|].
    destruct (isinstance_RuntimeError y) eqn:Hy; [done|].
    by intros [= <- <-].
  - intros x s' Hrun Hx. rewrite main_eq. fold (main_state s).
    by rewrite Hrun, Hx.
  - intros c Hsent Hc. rewrite main_eq. fold (main_state s).
    by rewrite (run_fetch_raise _ _ _ _ _
                  (fetch_data_get_raises _ _ _ _ Hsent Hc)).
  - intros path s' Hrun. rewrite main_eq. fold (main_state s). rewrite Hrun.
    by apply run_ok_inv in Hrun as (? & ? & _ & _ & _ & -> & _).
Qed.

Lemma main_reports_runtime_errors_witness :
  main (unreachable_env (Exn Timeout (lit "read timed out") None))
    example_state
  = (Ok (lit "Error: API request failed: read timed out"),
     main_state example_state) ∧
  ∃ s', main (example_env 200 (Ok world_payload)) example_state
        = (Ok (lit "Report generated: api_report.docx"), s').
Proof.
  split.
  - destruct (main_reports_runtime_errors
                (unreachable_env (Exn Timeout (lit "read timed out") None))
                example_state) as (_ & _ & Hget & _).
    exact (Hget (Exn Timeout (lit "read timed out") None) eq_refl eq_refl).
  - destruct (main_reports_runtime_errors
                (example_env 200 (Ok world_payload)) example_state)
      as (_ & _ & _ & Hok).
    eexists. eapply Hok. vm_compute. reflexivity.
Defined.

(** X17.  The script does not catch the failure of the rendering: when
    the payload is fetched, the texts of its mapping candidates are plain,
    and a mapping candidate has a [body] that is not a string, the script
    ends with an uncaught [AttributeError] and without a report. *)
Theorem main_uncaught_attribute_error e s resp data v :
  sent None e (main_state s) = Ok resp →
  ¬ (400 ≤ status_code resp < 600) →
  json_ resp = Ok data →
  Forall (λ v, plain_candidate (py_repr e) v = true)
    (shape_dispatch main_generator data).1 →
  v ∈ (shape_dispatch main_generator data).1 →
  string_body v = false →
  ∃ x s', main e s = (Raise x, s') ∧
          exn_class x = AttributeError ∧
          files s' = files s.
Proof.
  intros Hsent Hcode Hjson _ Hv Hbody.
  assert (Hfetch : fetch_data None e (main_state s)
                   = (Ok data, fetched e (main_state s) data)).
  { apply fetch_data_ok_iff. split; [by exists resp | done]. }
  destruct (run_non_string_raise _ _ _ _ _ Hfetch Hv Hbody) as (x & Hrun & Hx).
  exists x, (rendered e (main_state s) data).
  rewrite main_eq. fold (main_state s). rewrite Hrun.
  unfold isinstance_RuntimeError. by rewrite Hx.
Qed.

Lemma main_uncaught_attribute_error_witness :
  ∃ x s', main (example_env 200 (Ok null_body_payload)) example_state
            = (Raise x, s') ∧
          exn_class x = AttributeError ∧
          files s' = ∅.
Proof.
  apply (main_uncaught_attribute_error
           (example_env 200 (Ok null_body_payload)) example_state
           (example_response (api_url main_generator) 200 (Ok null_body_payload))
           null_body_payload (JDict (<[lit "body" := JNull]> ∅))
           eq_refl ltac:(simpl; lia) eq_refl
           ltac:(repeat constructor)
           ltac:(apply list_elem_of_here) eq_refl).
Defined.

End ScriptExtras.

(* ================================================================== *)
(** * The earlier variant of the normalizer                            *)
(* ================================================================== *)

Section HistoryExtras.

Implicit Types (i k : nat) (d : gmap str json) (l : list json)
  (self : generator) (data v : json).

Lemma history_normalize_loop_records l i acc :
  History.normalize_loop (enumerate l i) acc
  = Ok (acc ++ History.records_from i l).
Proof.
  revert i acc. induction l as [|v l IH]; intros i acc; simpl.
  - by rewrite app_nil_r.
  - destruct v; simpl; try apply IH.
    rewrite IH, <- app_assoc. reflexivity.
Qed.

Lemma history_normalize_eq self data candidates m :
  History.shape_dispatch self data = Ok (candidates, m) →
  History._normalize self data
  = Ok (History.mkReport m (History.records_from 1 candidates)).
Proof.
  intros Hshape. unfold History._normalize. rewrite Hshape. simpl.
  by rewrite history_normalize_loop_records.
Qed.

Lemma history_records_index_id i l :
  map History.index (History.records_from i l) = map index (records_from i l) ∧
  map History.id_ (History.records_from i l) = map id_ (records_from i l).
Proof.
  revert i. induction l as [|v l IH]; intros i; simpl; [done|].
  destruct (IH (S i)) as [Hidx Hid].
  destruct v; simpl; try done. by rewrite Hidx, Hid.
Qed.

(** X18.  The earlier variant never raises either.  An array gives the
    records of its mappings with [count] the array length; a value that is
    neither an array nor an object gives no item and [count] 0; [source]
    is the endpoint in both cases. *)
Theorem history_normalize_never_raises self data :
  (∃ r, History._normalize self data = Ok r) ∧
  (∀ l, data = JList l →
        History._normalize self data
        = Ok (History.mkReport
                (History.mkMeta (JStr (api_url self))
                   (JInt (Z.of_nat (length l))))
                (History.records_from 1 l))) ∧
  (isinstance_list data = false → isinstance_dict data = false →
        History._normalize self data
        = Ok (History.mkReport (History.mkMeta (JStr (api_url self)) (JInt 0))
                [])).
Proof.
  split; [|split].
  - destruct data; try (eexists; by apply history_normalize_eq).
  - intros l ->. by apply history_normalize_eq.
  - intros Hl Hd. destruct data; try done; by apply history_normalize_eq.
Qed.

Lemma history_normalize_never_raises_witness :
  History._normalize example_generator (JBool true)
  = Ok (History.mkReport
          (History.mkMeta (JStr (api_url example_generator)) (JInt 0)) []).
Proof.
  apply (history_normalize_never_raises example_generator (JBool true));
    reflexivity.
Defined.

(** X19.  In the earlier variant an object whose [items] is an array is an
    envelope: the records are those of the entries of [items].  [count] is
    the [count] of the envelope when it is there and true, whatever the
    number of entries, and the length of [items] otherwise; [source] is the
    [source] of the envelope when it is there and true, and the endpoint
    otherwise. *)
Theorem history_envelope self d l :
  d !! lit "items" = Some (JList l) →
  ∃ r, History._normalize self (JDict d) = Ok r ∧
       History.items r = History.records_from 1 l ∧
       (∀ c, d !! lit "count" = Some c → truthy c = true →
             History.count (History.meta r) = c) ∧
       (truthy (default JNull (d !! lit "count")) = false →
             History.count (History.meta r) = JInt (Z.of_nat (length l))) ∧
       (∀ src, d !! lit "source" = Some src → truthy src = true →
             History.source (History.meta r) = src) ∧
       (truthy (default JNull (d !! lit "source")) = false →
             History.source (History.meta r) = JStr (api_url self)).
Proof.
  intros Hitems. eexists. split.
  { apply history_normalize_eq. simpl. rewrite Hitems. simpl. reflexivity. }
  simpl. split; [done|]. unfold or_.
  split; [intros c Hc Ht; rewrite Hc; simpl; by rewrite Ht|].
  split; [by intros ->|].
  split; [intros src Hsrc Ht; rewrite Hsrc; simpl; by rewrite Ht|].
  by intros ->.
Qed.

Lemma history_envelope_witness :
  ∃ r, History._normalize example_generator
         (JDict (<[lit "count" := JInt 5]>
                 (<[lit "items" := JList [JDict ∅]]> ∅))) = Ok r ∧
       length (History.items r) = 1 ∧
       History.count (History.meta r) = JInt 5.
Proof.
  assert (Hlist : (<[lit "count" := JInt 5]>
                     (<[lit "items" := JList [JDict ∅]]> ∅) : gmap str json)
                  !! lit "items" = Some (JList [JDict ∅])) by reflexivity.
  destruct (history_envelope example_generator _ _ Hlist)
    as (r & Hr & Hitems & Hcount & _).
  exists r. split; [exact Hr|]. split.
  - rewrite Hitems. reflexivity.
  - apply Hcount; reflexivity.
Defined.

(** X20.  In the earlier variant an object whose [items] is missing or is
    not an array is one candidate only if it has one of the keys [id],
    [name], [title], [status], [created_at]; otherwise it gives no item at
    all.  Its [count] is the object's [count] when that is there and true,
    and [None] otherwise: no number is computed.  So the empty object
    gives no item and [count] [None]. *)
Theorem history_plain_object self d :
  isinstance_list (default JNull (d !! lit "items")) = false →
  ∃ r, History._normalize self (JDict d) = Ok r ∧
       (existsb (History.contains d) History.possible_item_keys = true →
          History.items r = [History.record_of 1 d]) ∧
       (existsb (History.contains d) History.possible_item_keys = false →
          History.items r = []) ∧
       (∀ c, d !! lit "count" = Some c → truthy c = true →
             History.count (History.meta r) = c) ∧
       (truthy (default JNull (d !! lit "count")) = false →
             History.count (History.meta r) = JNull).
Proof.
  intros Hitems.
  assert (Hshape : History.shape_dispatch self (JDict d)
    = Ok (if existsb (History.contains d) History.possible_item_keys
          then [JDict d] else [],
          History.mkMeta
            (or_ (default JNull (d !! lit "source")) (JStr (api_url self)))
            (or_ (default JNull (d !! lit "count")) JNull))).
  { unfold History.shape_dispatch. simpl.
    by destruct (default JNull (d !! lit "items")). }
  eexists. split; [by apply history_normalize_eq|]. simpl.
  split; [by intros ->|]. split; [by intros ->|]. unfold or_.
  split; [intros c Hc Ht; rewrite Hc; simpl; by rewrite Ht|].
  by intros ->.
Qed.

Lemma history_plain_object_witness :
  ∃ r, History._normalize example_generator (JDict ∅) = Ok r ∧
       History.items r = [] ∧
       History.count (History.meta r) = JNull.
Proof.
  assert (Hitems : isinstance_list
                     (default JNull ((∅ : gmap str json) !! lit "items"))
                   = false) by reflexivity.
  destruct (history_plain_object example_generator ∅ Hitems)
    as (r & Hr & _ & Hnone & _ & Hcount).
  exists r. split; [exact Hr|]. split; [apply Hnone | apply Hcount]; reflexivity.
Defined.

(** X21.  On every array the earlier variant and the present one agree on
    [source], on [count] and, record by record, on [index] and on [id]. *)
Theorem variants_agree_on_arrays self l :
  ∃ r h,
    _normalize self (JList l) = Ok r ∧
    History._normalize self (JList l) = Ok h ∧
    History.source (History.meta h) = JStr (source (meta r)) ∧
    History.count (History.meta h) = JInt (Z.of_nat (count (meta r))) ∧
    map History.index (History.items h) = map index (items r) ∧
    map History.id_ (History.items h) = map id_ (items r).
Proof.
  eexists _, _. split; [apply normalize_eq|].
  split; [by apply history_normalize_eq|]. simpl.
  split; [done|]. split; [done|]. apply history_records_index_id.
Qed.

(** X22.  The fallback chains of the earlier variant, for the mapping met
    at position [i]: [title] is the mapping's [title] when true, else its
    [name] when true, else "(untitled)"; [status] is the mapping's
    [status] when true, else "unknown"; [created_at] is [created_at], else
    [date], else the empty string; [summary] is [summary], else
    [description], else the empty string, so that it is never a false
    value other than the empty string.  [id] is kept whenever the key is
    there. *)
Theorem history_fallback_chains i d :
  ∃ rec, History.normalize_item i (JDict d) = Ok rec ∧
    History.index rec = i ∧
    History.id_ rec
      = default (JStr (lit "item-" ++ str_of_nat i)) (d !! lit "id") ∧
    (truthy (History.field d "title") = true →
       History.title rec = History.field d "title") ∧
    (truthy (History.field d "title") = false →
     truthy (History.field d "name") = true →
       History.title rec = History.field d "name") ∧
    (truthy (History.field d "title") = false →
     truthy (History.field d "name") = false →
       History.title rec = JStr (lit "(untitled)")) ∧
    (truthy (History.field d "status") = true →
       History.status rec = History.field d "status") ∧
    (truthy (History.field d "status") = false →
       History.status rec = JStr (lit "unknown")) ∧
    (truthy (History.field d "created_at") = true →
       History.created_at rec = History.field d "created_at") ∧
    (truthy (History.field d "created_at") = false →
     truthy (History.field d "date") = true →
       History.created_at rec = History.field d "date") ∧
    (truthy (History.field d "created_at") = false →
     truthy (History.field d "date") = false →
       History.created_at rec = JStr (lit "")) ∧
    (truthy (History.field d "summary") = true →
       History.summary rec = History.field d "summary") ∧
    (truthy (History.field d "summary") = false →
     truthy (History.field d "description") = true →
       History.summary rec = History.field d "description") ∧
    (truthy (History.field d "summary") = false →
     truthy (History.field d "description") = false →
       History.summary rec = JStr (lit "")) ∧
    (truthy (History.summary rec) = true ∨
     History.summary rec = JStr (lit "")).
Proof.
  exists (History.record_of i d). split; [done|].
  unfold History.field. simpl. unfold or_.
  split; [done|]. split; [done|].
  repeat (split;
    [intros;
     repeat (progress (repeat match goal with
                              | H : truthy _ = _ |- _ => rewrite H
                              end; cbv beta iota));
     done|]).
  destruct (truthy (default JNull (d !! lit "summary"))) eqn:H1;
    cbv beta iota; rewrite ?H1; [by left|].
  destruct (truthy (default JNull (d !! lit "description"))) eqn:H2;
    cbv beta iota; rewrite ?H2; [by left | by right].
Qed.

Lemma history_fallback_chains_witness :
  ∃ rec,
    History.normalize_item 2
      (JDict (<[lit "name" := JStr (lit "n")]>
              (<[lit "summary" := JNull]> ∅))) = Ok rec ∧
    History.title rec = JStr (lit "n") ∧
    History.status rec = JStr (lit "unknown") ∧
    History.summary rec = JStr (lit "").
Proof.
  destruct (history_fallback_chains 2
              (<[lit "name" := JStr (lit "n")]> (<[lit "summary" := JNull]> ∅)))
    as (rec & Hrec & _ & _ & _ & Hname & _ & _ & Hstatus & _ & _ & _ & _ & _
        & Hsummary & _).
  exists rec. split; [exact Hrec|].
  split; [apply Hname; reflexivity|].
  split; [apply Hstatus; reflexivity | apply Hsummary; reflexivity].
Defined.

End HistoryExtras.
